(** * Typeahead interaction engine and mock search service

    A shallow embedding of

    - [packages/components/src/services/api.ts]  (the mock search service:
      [MOCK_ITEMS], [searchItems]), and
    - [packages/components/src/typeahead/Typeahead.tsx]  (the component's
      state and its event handlers: [handleSearch], [handleInputChange],
      [handleSelectItem], [handleKeyDown], [handleClear], the focus and
      outside-click handlers),

    together with the properties of the engine that the specification
    states about them.

    Conventions of the embedding.

    - JavaScript numbers that the component handles ([maxResults],
      [debounceMs], [minQueryLength], [selectedIndex], times) are integers
      here, as [Z]; [NaN] and fractions are outside the model.
    - JavaScript strings are [string]s of 8-bit characters; [toLowerCase]
      and [trim] are the ASCII parts of the JavaScript functions.
    - Every [useState] cell is a field of [State]; a handler is a function
      from the world before the event to the world after it, written as a
      sequence of setter calls in the order of the source.
    - The browser is part of the world: the timer queue that [setTimeout]
      and [clearTimeout] act on, the clock, the promises of the fetch
      function that have not settled yet, and the trace of the calls that
      leave the component (fetch function, [onSelect], [onError],
      [console.error], [focus]). *)

From Stdlib Require Import ZArith List String Ascii Bool Lia.
From stdpp Require Import base list.
Import ListNotations.

Local Open Scope string_scope.
Local Open Scope list_scope.
Local Open Scope Z_scope.

(* ================================================================== *)
(** ** JavaScript string operations used by the service *)

Module Js.

(** [c] is one of the white-space characters that [String.prototype.trim]
    removes (tab, line feed, vertical tab, form feed, carriage return,
    space, no-break space). *)
Definition isWhiteSpace (c : ascii) : bool :=
  let n := nat_of_ascii c in
  ((9 <=? n)%nat && (n <=? 13)%nat) || (n =? 32)%nat || (n =? 160)%nat.

Definition lowerChar (c : ascii) : ascii :=
  let n := nat_of_ascii c in
  if ((65 <=? n)%nat && (n <=? 90)%nat) then ascii_of_nat (n + 32) else c.

Fixpoint toLowerCase (s : string) : string :=
  match s with
  | EmptyString => EmptyString
  | String c r => String (lowerChar c) (toLowerCase r)
  end.

Fixpoint trimStart (s : string) : string :=
  match s with
  | EmptyString => EmptyString
  | String c r => if isWhiteSpace c then trimStart r else s
  end.

Fixpoint trimEnd (s : string) : string :=
  match s with
  | EmptyString => EmptyString
  | String c r =>
      match trimEnd r with
      | EmptyString => if isWhiteSpace c then EmptyString else String c EmptyString
      | r' => String c r'
      end
  end.

Definition trim (s : string) : string := trimEnd (trimStart s).

(** [s.includes(sub)]: [sub] occurs in [s] as a contiguous substring. *)
Fixpoint includes (s sub : string) : bool :=
  String.prefix sub s ||
  match s with
  | EmptyString => false
  | String _ r => includes r sub
  end.

(** Truthiness of a string: [!s] is [true] exactly for the empty string. *)
Definition isEmpty (s : string) : bool :=
  match s with EmptyString => true | _ => false end.

(** [Math.max] and [Math.min] on integers. *)
Definition Math_max (a b : Z) : Z := Z.max a b.
Definition Math_min (a b : Z) : Z := Z.min a b.

(** [`${v}`] for an optional string field: [undefined] prints as the
    word. *)
Definition template (v : option string) : string :=
  match v with Some s => s | None => "undefined" end.

(** [v || ''] for an optional string field. *)
Definition orEmpty (v : option string) : string :=
  match v with Some s => if isEmpty s then "" else s | None => "" end.

(** [s] does not begin with a white-space character. *)
Definition noLeadingSpace (s : string) : Prop :=
  match s with
  | EmptyString => True
  | String c _ => isWhiteSpace c = false
  end.

(** Every character of [s] satisfies [p] (a character class under [+] or
    [*] in an anchored regular expression). *)
Fixpoint allChars (p : ascii -> bool) (s : string) : bool :=
  match s with
  | EmptyString => true
  | String c r => p c && allChars p r
  end.

(** [new Set(values)] read back with [Array.from]: the distinct values in
    the order of their first occurrence. *)
Definition setAdd (seen : list string) (x : string) : list string :=
  if existsb (String.eqb x) seen then seen else seen ++ [x].

Definition newSet (values : list string) : list string :=
  fold_left setAdd values [].

(** [Boolean(v)] for an optional string. *)
Definition truthy (v : option string) : bool :=
  match v with Some s => negb (isEmpty s) | None => false end.

End Js.

(* ================================================================== *)
(** ** The mock search service, [services/api.ts] *)

Module Api.
Import Js.

(** [SearchItem] of [types.ts]. *)
Record SearchItem : Type := mkSearchItem {
  id : string;
  label : string;
  value : string;
  category : option string;
  description : option string
}.

Definition MOCK_ITEMS : list SearchItem :=
  [ mkSearchItem "1" "React" "react" (Some "Library")
      (Some "A JavaScript library for building user interfaces");
    mkSearchItem "2" "Vue" "vue" (Some "Framework")
      (Some "The Progressive JavaScript Framework");
    mkSearchItem "3" "Angular" "angular" (Some "Framework")
      (Some "Platform for building mobile and desktop web applications");
    mkSearchItem "4" "Svelte" "svelte" (Some "Framework")
      (Some "Cybernetically enhanced web apps");
    mkSearchItem "5" "Next.js" "nextjs" (Some "Framework")
      (Some "The React Framework for Production");
    mkSearchItem "6" "TypeScript" "typescript" (Some "Language")
      (Some "Typed superset of JavaScript");
    mkSearchItem "7" "TailwindCSS" "tailwindcss" (Some "CSS Framework")
      (Some "Utility-first CSS framework");
    mkSearchItem "8" "Vite" "vite" (Some "Build Tool")
      (Some "Next Generation Frontend Tooling") ].

(** The text an item is searched in:
    [`${item.label} ${item.value} ${item.category} ${item.description || ''}`.toLowerCase()]. *)
Definition searchableText (item : SearchItem) : string :=
  toLowerCase
    (label item ++ " " ++ value item ++ " " ++ template (category item)
       ++ " " ++ orEmpty (description item))%string.

(** [Number(limit) || 10]: a zero limit is falsy and becomes 10. *)
Definition limitOr10 (limit : Z) : Z :=
  if limit =? 0 then 10 else limit.

(** [Math.min(Math.max(Number(limit) || 10, 1), 100)]. *)
Definition validLimit (limit : Z) : Z :=
  Math_min (Math_max (limitOr10 limit) 1) 100.

(** [filtered.slice(0, n)] for a non-negative [n]. *)
Definition slice0 {A} (n : Z) (l : list A) : list A :=
  firstn (Z.to_nat n) l.

(** The list the promise of [searchItems(query, limit)] resolves to; the
    optional second argument is [None] when the caller leaves it out. *)
Definition searchItems (query : string) (limit : option Z) : list SearchItem :=
  let limit := match limit with Some l => l | None => 10 end in
  let sanitizedQuery := toLowerCase (trim query) in
  if isEmpty sanitizedQuery then []
  else
    let filtered :=
      List.filter (fun item => includes (searchableText item) sanitizedQuery)
                  MOCK_ITEMS in
    slice0 (validLimit limit) filtered.

(** What the specification says [searchItems] returns: the matching
    items in mock-data order, truncated to the limit clamped into
    [1,100], with 10 for a limit that is left out. *)
Definition clamp_1_100 (limit : Z) : Z := Z.max 1 (Z.min limit 100).

Definition searchItems_spec (query : string) (limit : option Z)
  : list SearchItem :=
  let q := toLowerCase (trim query) in
  if isEmpty q then []
  else
    firstn (Z.to_nat (clamp_1_100 (match limit with Some l => l | None => 10 end)))
      (List.filter (fun item => includes (searchableText item) q) MOCK_ITEMS).

(** The query as it is searched for, and the limit as it is applied. *)
Definition sanitize (query : string) : string := toLowerCase (trim query).

Definition appliedLimit (limit : option Z) : Z :=
  validLimit (match limit with Some l => l | None => 10 end).

(** The character class [[a-zA-Z0-9\-_]]. *)
Definition isSafeIdChar (c : ascii) : bool :=
  let n := nat_of_ascii c in
  ((97 <=? n)%nat && (n <=? 122)%nat)
  || ((65 <=? n)%nat && (n <=? 90)%nat)
  || ((48 <=? n)%nat && (n <=? 57)%nat)
  || (n =? 45)%nat || (n =? 95)%nat.

(** [String(id).match(/^[a-zA-Z0-9\-_]+$/)] finds a match. *)
Definition isSafeId (itemId : string) : bool :=
  negb (isEmpty itemId) && allChars isSafeIdChar itemId.

(** What the promise of [getItemById(id)] resolves to; [None] is [null]. *)
Definition getItemById (itemId : string) : option SearchItem :=
  if negb (isSafeId itemId) then None
  else List.find (fun item => String.eqb (id item) itemId) MOCK_ITEMS.

(** The categories of a list of items, as [getCategories] collects them:
    [new Set(items.map(item => item.category).filter(Boolean))]. *)
Definition categoriesOf (items : list SearchItem) : list string :=
  newSet (omap (fun v => v) (List.filter truthy (map category items))).

(** What the promise of [getCategories()] resolves to. *)
Definition getCategories : list string := categoriesOf MOCK_ITEMS.

End Api.

(* ================================================================== *)
(** ** The component, [typeahead/Typeahead.tsx] *)

Module Typeahead.
Import Js.

Definition DEBOUNCE_MS : Z := 300.
Definition MIN_QUERY_LENGTH : Z := 1.
Definition MAX_RESULTS : Z := 10.

(** [AutocompleteItem] of [types.ts]: the only field the component reads
    is [id]. *)
Class AutocompleteItem (T : Type) : Type := item_id : T -> string.

#[export] Instance SearchItem_AutocompleteItem : AutocompleteItem Api.SearchItem :=
  Api.id.

(** A JavaScript [Error], and the values a fetch function is modelled to
    reject with: an [Error] or a string. *)
Record JsError : Type := mkError { message : string }.

Inductive Thrown : Type :=
| ThrownError (e : JsError)
| ThrownString (s : string).

(** [err instanceof Error ? err : new Error(String(err))]. *)
Definition asError (err : Thrown) : JsError :=
  match err with
  | ThrownError e => e
  | ThrownString s => mkError s
  end.

(** The props that the handlers read.  [onSelect] and [onError] say
    whether the integrator supplied the callback; its invocations are
    recorded in the trace. *)
Record Props : Type := mkProps {
  maxResults : Z;
  debounceMs : Z;
  minQueryLength : Z;
  onSelect : bool;
  onError : bool
}.

Definition defaultProps : Props :=
  mkProps MAX_RESULTS DEBOUNCE_MS MIN_QUERY_LENGTH false false.

Definition validMaxResults (p : Props) : Z :=
  Math_max 1 (Math_min (maxResults p) 100).
Definition validDebounceMs (p : Props) : Z :=
  Math_max 0 (debounceMs p).
Definition validMinQueryLength (p : Props) : Z :=
  Math_max 0 (minQueryLength p).

Inductive Key : Type := ArrowDown | ArrowUp | Enter | Escape | OtherKey.

(** Statements of a handler run one after the other. *)
Definition andThen {W : Type} (f g : W -> W) : W -> W := fun w => g (f w).
Definition skip {W : Type} : W -> W := fun w => w.

Notation "f >>> g" := (andThen f g) (at level 61, left associativity).

Section Engine.
Context {T : Type} `{AutocompleteItem T}.

(** The six [useState] cells. *)
Record State : Type := mkState {
  query : string;
  results : list T;
  isOpen : bool;
  isLoading : bool;
  selectedIndex : Z;
  error : option string
}.

(** A pending [setTimeout(() => handleSearch(value), delay)]. *)
Record Timer : Type := mkTimer {
  timer_id : nat;
  fire_at : Z;
  timer_value : string
}.

(** A call of the fetch function whose promise has not settled. *)
Record Request : Type := mkRequest {
  request_id : nat;
  request_query : string;
  request_limit : Z
}.

(** Calls that leave the component. *)
Inductive Effect : Type :=
| FetchCall (q : string) (limit : Z)
| SelectCallback (item : T)
| ErrorCallback (e : JsError)
| ConsoleError (e : JsError)
| InputFocus.

Record World : Type := mkWorld {
  ui : State;
  debounceTimer : option nat;      (* debounceTimer.current *)
  timers : list Timer;             (* the browser's timer queue *)
  nextTimerId : nat;
  now : Z;
  inflight : list Request;
  nextRequestId : nat;
  trace : list Effect
}.

Definition initialState : State := mkState "" [] false false (-1) None.

(** Timer ids start at 1, as in a browser, so that a stored id is
    truthy. *)
Definition initialWorld : World :=
  mkWorld initialState None [] 1 0 [] 0 [].

Definition Handler : Type := World -> World.

Definition withUi (f : State -> State) : Handler := fun w =>
  mkWorld (f (ui w)) (debounceTimer w) (timers w) (nextTimerId w) (now w)
          (inflight w) (nextRequestId w) (trace w).

Definition setQuery (v : string) : Handler :=
  withUi (fun s => mkState v (results s) (isOpen s) (isLoading s)
                           (selectedIndex s) (error s)).
Definition setResults (v : list T) : Handler :=
  withUi (fun s => mkState (query s) v (isOpen s) (isLoading s)
                           (selectedIndex s) (error s)).
Definition setIsOpen (v : bool) : Handler :=
  withUi (fun s => mkState (query s) (results s) v (isLoading s)
                           (selectedIndex s) (error s)).
Definition setIsLoading (v : bool) : Handler :=
  withUi (fun s => mkState (query s) (results s) (isOpen s) v
                           (selectedIndex s) (error s)).
(** [setSelectedIndex((prev) => f(prev))]. *)
Definition updSelectedIndex (f : Z -> Z) : Handler :=
  withUi (fun s => mkState (query s) (results s) (isOpen s) (isLoading s)
                           (f (selectedIndex s)) (error s)).
Definition setSelectedIndex (v : Z) : Handler :=
  updSelectedIndex (fun _ => v).
Definition setError (v : option string) : Handler :=
  withUi (fun s => mkState (query s) (results s) (isOpen s) (isLoading s)
                           (selectedIndex s) v).

Definition emit (e : Effect) : Handler := fun w =>
  mkWorld (ui w) (debounceTimer w) (timers w) (nextTimerId w) (now w)
          (inflight w) (nextRequestId w) (trace w ++ [e]).

(** [clearTimeout(id)]: the timer leaves the queue, if it is there. *)
Definition clearTimeout (id : nat) : Handler := fun w =>
  mkWorld (ui w) (debounceTimer w)
          (List.filter (fun t => negb (timer_id t =? id)%nat) (timers w))
          (nextTimerId w) (now w) (inflight w) (nextRequestId w) (trace w).

(** [debounceTimer.current = setTimeout(() => handleSearch(value), delay)]. *)
Definition setDebounceTimeout (value : string) (delay : Z) : Handler := fun w =>
  mkWorld (ui w) (Some (nextTimerId w))
          (timers w ++ [mkTimer (nextTimerId w) (now w + delay) value])
          (S (nextTimerId w)) (now w) (inflight w) (nextRequestId w) (trace w).

(** [fetchFunction(searchQuery, validMaxResults)]: the call is recorded
    and its promise is pending until the environment settles it. *)
Definition callFetch (q : string) (limit : Z) : Handler := fun w =>
  mkWorld (ui w) (debounceTimer w) (timers w) (nextTimerId w) (now w)
          (inflight w ++ [mkRequest (nextRequestId w) q limit])
          (S (nextRequestId w)) (trace w ++ [FetchCall q limit]).

Definition settle (rid : nat) : Handler := fun w =>
  mkWorld (ui w) (debounceTimer w) (timers w) (nextTimerId w) (now w)
          (List.filter (fun r => negb (request_id r =? rid)%nat) (inflight w))
          (nextRequestId w) (trace w).

Definition timer_id_of (ref : option nat) : nat :=
  match ref with Some id => id | None => 0%nat end.

Definition isInflight (rid : nat) (w : World) : bool :=
  existsb (fun r => (request_id r =? rid)%nat) (inflight w).

Variable props : Props.

(** *** [handleSearch]

    The part of the async function that runs when it is called, up to
    the [await]: the minimum-length guard, or the call of the fetch
    function. *)
Definition handleSearch (searchQuery : string) : Handler :=
  if Z.of_nat (String.length searchQuery) <? validMinQueryLength props then
    setResults [] >>> setIsOpen false >>> setError None
  else
    setIsLoading true >>> setError None
      >>> callFetch searchQuery (validMaxResults props).

(** The rest of the [try] block and the [finally] block, run when the
    awaited promise is fulfilled with [items]. *)
Definition handleSearch_fulfilled (items : list T) : Handler :=
  setResults items
    >>> setIsOpen (0 <? Z.of_nat (length items))
    >>> setSelectedIndex (-1)
    >>> setIsLoading false.

(** The [catch] block and the [finally] block, run when the awaited
    promise is rejected with [err]. *)
Definition handleSearch_rejected (err : Thrown) : Handler :=
  let error := asError err in
  setError (Some "Failed to fetch search results")
    >>> emit (ConsoleError error)
    >>> setResults []
    >>> (if onError props then emit (ErrorCallback error) else skip)
    >>> setIsLoading false.

(** *** [handleInputChange] *)
Definition handleInputChange (value : string) : Handler :=
  setQuery value
    >>> (fun w => match debounceTimer w with
                  | Some id => clearTimeout id w
                  | None => w
                  end)
    >>> setDebounceTimeout value (validDebounceMs props).

(** *** [handleSelectItem] *)
Definition handleSelectItem (item : T) : Handler :=
  setQuery (item_id item)
    >>> setIsOpen false
    >>> setResults []
    >>> setSelectedIndex (-1)
    >>> (if onSelect props then emit (SelectCallback item) else skip).

(** *** [handleKeyDown]

    [results] and [selectedIndex] are the values of the render the
    handler closes over, which is the state the event arrives in. *)
Definition handleKeyDown (key : Key) : Handler := fun w =>
  match key with
  | ArrowDown =>
      updSelectedIndex
        (fun prev => if prev <? Z.of_nat (length (results (ui w))) - 1
                     then prev + 1 else prev) w
  | ArrowUp =>
      updSelectedIndex (fun prev => if 0 <? prev then prev - 1 else -1) w
  | Enter =>
      if 0 <=? selectedIndex (ui w) then
        match results (ui w) !! Z.to_nat (selectedIndex (ui w)) with
        | Some item => handleSelectItem item w
        | None => w
        end
      else w
  | Escape => (setIsOpen false >>> setSelectedIndex (-1)) w
  | OtherKey => w
  end.

(** *** [handleClear] *)
Definition handleClear : Handler :=
  setQuery ""
    >>> setResults []
    >>> setIsOpen false
    >>> setSelectedIndex (-1)
    >>> emit InputFocus.

(** [onFocus={() => query && setIsOpen(true)}]. *)
Definition handleFocus : Handler := fun w =>
  if isEmpty (query (ui w)) then w else setIsOpen true w.

(** [handleClickOutside], registered on the document while the
    dropdown is open, for a pointer press outside the input and the
    results. *)
Definition handleClickOutside : Handler := fun w =>
  if isOpen (ui w) then setIsOpen false w else w.

(** The result list is rendered, so that its items receive pointer
    events: [isOpen && !isLoading && results.length > 0]. *)
Definition itemsRendered (w : World) : bool :=
  isOpen (ui w) && negb (isLoading (ui w))
    && (0 <? Z.of_nat (length (results (ui w)))).

(** *** Time

    [dt] time units pass; the timers that are due by then leave the
    queue and their callbacks run, in queue order. *)
Definition isDue (t : Z) (tm : Timer) : bool := fire_at tm <=? t.

Definition advanceClock (dt : Z) : Handler := fun w =>
  mkWorld (ui w) (debounceTimer w) (timers w) (nextTimerId w)
          (now w + Z.max 0 dt) (inflight w) (nextRequestId w) (trace w).

Definition fireDueTimers : Handler := fun w =>
  let due := List.filter (isDue (now w)) (timers w) in
  let rest := List.filter (fun tm => negb (isDue (now w) tm)) (timers w) in
  fold_left (fun w' tm => handleSearch (timer_value tm) w') due
    (mkWorld (ui w) (debounceTimer w) rest (nextTimerId w) (now w)
             (inflight w) (nextRequestId w) (trace w)).

Definition elapse (dt : Z) : Handler := advanceClock dt >>> fireDueTimers.

(** *** Events and the step function *)
Inductive Event : Type :=
| Change (value : string)                  (* onChange of the input *)
| KeyDown (key : Key)                      (* onKeyDown of the input *)
| MouseEnter (index : nat)                 (* onMouseEnter of item [index] *)
| Click (index : nat)                      (* onClick of item [index] *)
| ClearClick                               (* onClick of the clear button *)
| Focus                                    (* onFocus of the input *)
| MouseDownOutside
| Elapse (dt : Z)
| Fulfil (rid : nat) (items : list T)      (* promise [rid] is fulfilled *)
| Reject (rid : nat) (err : Thrown).       (* promise [rid] is rejected *)

(** An event that the page cannot deliver in the state it arrives in
    (an item that is not rendered, the clear button while the query is
    empty, a promise that is not pending) changes nothing. *)
Definition step (w : World) (ev : Event) : World :=
  match ev with
  | Change value => handleInputChange value w
  | KeyDown key => handleKeyDown key w
  | MouseEnter index =>
      if itemsRendered w then
        match results (ui w) !! index with
        | Some _ => setSelectedIndex (Z.of_nat index) w
        | None => w
        end
      else w
  | Click index =>
      if itemsRendered w then
        match results (ui w) !! index with
        | Some item => handleSelectItem item w
        | None => w
        end
      else w
  | ClearClick => if isEmpty (query (ui w)) then w else handleClear w
  | Focus => handleFocus w
  | MouseDownOutside => handleClickOutside w
  | Elapse dt => elapse dt w
  | Fulfil rid items =>
      if isInflight rid w then (settle rid >>> handleSearch_fulfilled items) w
      else w
  | Reject rid err =>
      if isInflight rid w then (settle rid >>> handleSearch_rejected err) w
      else w
  end.

Definition run (w : World) (evs : list Event) : World :=
  fold_left step evs w.

Inductive reachable : World -> Prop :=
| reachable_init : reachable initialWorld
| reachable_step w ev : reachable w -> reachable (step w ev).

(** The fetch calls of a trace, in order. *)
Definition fetchCalls (tr : list Effect) : list (string * Z) :=
  flat_map (fun e => match e with
                     | FetchCall q limit => [(q, limit)]
                     | _ => []
                     end) tr.


(** What a committed selection of [item] leaves behind, from the world [w]
    before it to the world [w'] after it. *)
Definition selectionCommitted (item : T) (w w' : World) : Prop :=
  query (ui w') = item_id item
  /\ results (ui w') = []
  /\ isOpen (ui w') = false
  /\ selectedIndex (ui w') = -1
  /\ trace w' = trace w ++ (if onSelect props then [SelectCallback item] else []).

(** The highlighted index is "none" or an index into the result set. *)
Definition indexInBounds (s : State) : Prop :=
  -1 <= selectedIndex s <= Z.of_nat (length (results s)) - 1.

(** At most one timer is pending, and it is the one the ref holds. *)
Definition timersOk (w : World) : bool :=
  match timers w with
  | [] => true
  | [tm] => match debounceTimer w with
            | Some id => (timer_id tm =? id)%nat
            | None => false
            end
  | _ => false
  end.




(** The world right after a keystroke with [value]: the only pending timer
    is the one the keystroke started, the ref holds it, and it fires one
    debounce delay from now. *)
Definition justTyped (value : string) (w : World) : Prop :=
  timers w = [mkTimer (timer_id_of (debounceTimer w))
                      (now w + validDebounceMs props) value]
  /\ debounceTimer w <> None
  /\ query (ui w) = value.


(** *** Unmount

    The cleanup of the effect at the end of the component: a pending
    debounce timer is cleared. *)
Definition unmountCleanup : Handler := fun w =>
  match debounceTimer w with
  | Some id => clearTimeout id w
  | None => w
  end.

(** *** What is rendered

    One [<ItemRenderer>] per result, with its [isSelected] prop. *)
Definition renderRows (s : State) : list (T * bool) :=
  imap (fun index item => (item, selectedIndex s =? Z.of_nat index)) (results s).

Inductive DropdownPart : Type :=
| LoadingPart                          (* "Loading..." *)
| NoResultsPart                        (* "No results found" *)
| ListPart (rows : list (T * bool)).   (* the [<ul>] of the results *)

(** The three conditional children of the dropdown [<div>], in order. *)
Definition dropdownParts (s : State) : list DropdownPart :=
  (if isLoading s then [LoadingPart] else [])
  ++ (if negb (isLoading s) && (length (results s) =? 0)%nat
      then [NoResultsPart] else [])
  ++ (if negb (isLoading s) && (0 <? length (results s))%nat
      then [ListPart (renderRows s)] else []).

Record View : Type := mkView {
  inputValue : string;                 (* value of the input *)
  ariaExpanded : bool;                 (* aria-expanded of the input *)
  clearButton : bool;                  (* the clear button is rendered *)
  alert : option string;               (* text of the role="alert" box *)
  dropdown : option (list DropdownPart)  (* the listbox, when rendered *)
}.

Definition render (s : State) : View :=
  mkView (query s) (isOpen s) (negb (isEmpty (query s)))
         (match error s with
          | Some msg => if isEmpty msg then None else Some msg
          | None => None
          end)
         (if isOpen s then Some (dropdownParts s) else None).

(** A fetch call the component may make: the query is not shorter than
    the minimum and the limit is the clamped one. *)
Definition fetchCallOk (e : Effect) : Prop :=
  match e with
  | FetchCall q limit =>
      validMinQueryLength props <= Z.of_nat (String.length q)
      /\ limit = validMaxResults props
  | _ => True
  end.

(** A callback the integrator did not supply is not called. *)
Definition callbackSupplied (e : Effect) : Prop :=
  match e with
  | SelectCallback _ => onSelect props = true
  | ErrorCallback _ => onError props = true
  | _ => True
  end.

(** [k] presses of the same key. *)
Definition presses (key : Key) (k : nat) : list Event :=
  repeat (KeyDown key) k.

End Engine.

(** [defaultFetch], the fetch function used when [onFetch] is not given:
    [async (q) => searchItems(q, validMaxResults)]; the limit it is called
    with is not a parameter of it. *)
Definition defaultFetch (p : Props) (q : string) (_ : Z) : list Api.SearchItem :=
  Api.searchItems q (Some (validMaxResults p)).

End Typeahead.


(* ================================================================== *)
(** ** Sample data for the concrete runs *)

Module Samples.
Import Typeahead.

Definition react : Api.SearchItem :=
  Api.mkSearchItem "1" "React" "react" (Some "Library") (Some "A JS library").
Definition vue : Api.SearchItem :=
  Api.mkSearchItem "2" "Vue" "vue" (Some "Framework") (Some "Another framework").

(** The dropdown is open on two results and the second one is
    highlighted. *)
Definition openOnTwo : @World Api.SearchItem :=
  run defaultProps initialWorld
    [Change "a"; Elapse 300; Fulfil 0 [react; vue];
     KeyDown ArrowDown; KeyDown ArrowDown].

(** Two fetches are pending: the one for ["r"] was issued first, the one
    for ["re"] second. *)
Definition twoPending : @World Api.SearchItem :=
  run defaultProps initialWorld
    [Change "r"; Elapse 300; Change "re"; Elapse 300].

End Samples.

(* ================================================================== *)
(** ** Properties of the component *)

Import Typeahead.

(** Projections of a world that a handler produced are computed by
    unfolding the setters under the projection only. *)
Ltac unfold_handlers :=
  cbn [handleSearch_fulfilled handleSearch_rejected
       handleInputChange handleSelectItem handleClear
       setQuery setResults setIsOpen setIsLoading
       setSelectedIndex updSelectedIndex setError emit callFetch settle
       clearTimeout setDebounceTimeout withUi andThen skip advanceClock
       ui debounceTimer timers nextTimerId now inflight nextRequestId trace
       query results isOpen isLoading selectedIndex error
       timer_id fire_at timer_value request_id request_query request_limit].

Section Facts.
Context {T : Type} `{AutocompleteItem T}.
Variable props : Props.
Implicit Types (w : @World T) (s : @State T).


Lemma run_reachable w evs : reachable props w -> reachable props (run props w evs).
Proof.
  revert w. induction evs as [|ev evs IH]; intros w Hw; simpl; [assumption|].
  apply IH. now constructor.
Qed.

(** *** The minimum-length guard *)

Lemma validMinQueryLength_ge q :
  Z.of_nat (String.length q) < minQueryLength props ->
  (Z.of_nat (String.length q) <? validMinQueryLength props) = true.
Proof.
  intros Hlt. apply Z.ltb_lt. unfold validMinQueryLength, Js.Math_max. lia.
Qed.

(** C6.  A query strictly shorter than the configured minimum query length
    never reaches the fetch function: [handleSearch] records no fetch call
    and leaves no promise pending; it empties the result set, closes the
    dropdown and clears the error, and touches neither the loading flag nor
    the timer queue.  The default minimum is 1. *)
Theorem short_query_takes_local_path w q :
  Z.of_nat (String.length q) < minQueryLength props ->
  let w' := handleSearch props q w in
  results (ui w') = [] /\ isOpen (ui w') = false /\ error (ui w') = None
  /\ trace w' = trace w /\ inflight w' = inflight w
  /\ nextRequestId w' = nextRequestId w
  /\ isLoading (ui w') = isLoading (ui w) /\ timers w' = timers w
  /\ minQueryLength defaultProps = 1.
Proof.
  intros Hlt w'. subst w'. unfold handleSearch.
  rewrite (validMinQueryLength_ge q Hlt).
  unfold_handlers. repeat split; reflexivity.
Qed.

(** *** Escape *)

(** C7 (as amended).  Escape closes the dropdown and resets the highlighted
    index to -1; the result set, the query, the error and the loading flag
    are what they were. *)
Theorem escape_closes_and_keeps_results w :
  let w' := step props w (KeyDown Escape) in
  isOpen (ui w') = false /\ selectedIndex (ui w') = -1
  /\ results (ui w') = results (ui w) /\ query (ui w') = query (ui w)
  /\ error (ui w') = error (ui w) /\ isLoading (ui w') = isLoading (ui w).
Proof. simpl. unfold_handlers. repeat split; reflexivity. Qed.

(** *** The clear control *)


(** *** Configuration *)

Lemma handleSelectItem_committed item w :
  selectionCommitted props item w (handleSelectItem props item w).
Proof.
  unfold selectionCommitted, handleSelectItem.
  destruct (onSelect props); unfold_handlers; rewrite ?app_nil_r;
    repeat split; reflexivity.
Qed.






(** *** Selection *)

(** C4.  Selecting result [i] commits exactly [results[i]], by either
    input method: Enter while the highlighted index is [i], or a click on
    the rendered item [i].  The query becomes the item's id, the result set
    is emptied, the dropdown is closed, the highlighted index is -1, and
    the selection callback, when the integrator gave one, is called once
    with that item. *)
Theorem selection_contract w (i : nat) (item : T) :
  results (ui w) !! i = Some item ->
  (selectedIndex (ui w) = Z.of_nat i ->
   selectionCommitted props item w (step props w (KeyDown Enter)))
  /\ (itemsRendered w = true ->
      selectionCommitted props item w (step props w (Click i))).
Proof.
  intros Hi. split.
  - intros Hsel. simpl. rewrite Hsel.
    replace (0 <=? Z.of_nat i) with true by (symmetry; apply Z.leb_le; lia).
    rewrite Nat2Z.id, Hi. apply handleSelectItem_committed.
  - intros Hr. simpl. rewrite Hr, Hi. apply handleSelectItem_committed.
Qed.

(** *** Settling of fetches *)

Lemma isInflight_settle_other (ridA ridB : nat) w :
  ridA <> ridB ->
  isInflight ridA (settle ridB w) = isInflight ridA w.
Proof.
  intros Hne. unfold isInflight, settle. simpl.
  induction (inflight w) as [|r l IH]; simpl; [reflexivity|].
  destruct (Nat.eqb_spec (request_id r) ridB) as [E|E]; simpl.
  - rewrite IH. destruct (Nat.eqb_spec (request_id r) ridA); [congruence|reflexivity].
  - now rewrite IH.
Qed.

Lemma step_Fulfil_inflight rid items w :
  isInflight rid w = true ->
  step props w (Fulfil rid items) = handleSearch_fulfilled items (settle rid w).
Proof. intros E. simpl. now rewrite E. Qed.

Lemma step_Reject_inflight rid err w :
  isInflight rid w = true ->
  step props w (Reject rid err) = handleSearch_rejected props err (settle rid w).
Proof. intros E. simpl. now rewrite E. Qed.

Lemma isInflight_fulfilled rid items w :
  isInflight rid (handleSearch_fulfilled items w) = isInflight rid w.
Proof. reflexivity. Qed.

(** C1 (as amended).  The component applies every response of a pending
    fetch when it arrives and does not look at which request was issued
    last: if the response of B is applied first and the response of A
    after it, the result set is the items of A, the dropdown is open iff
    they are not empty, and the highlighted index is -1. *)
Theorem last_settled_response_wins w (ridA ridB : nat) (itemsA itemsB : list T) :
  isInflight ridA w = true ->
  isInflight ridB w = true ->
  ridA <> ridB ->
  let w' := run props w [Fulfil ridB itemsB; Fulfil ridA itemsA] in
  results (ui w') = itemsA
  /\ isOpen (ui w') = (0 <? Z.of_nat (length itemsA))
  /\ selectedIndex (ui w') = -1.
Proof.
  intros HA HB Hne w'. subst w'. unfold run. cbn [fold_left].
  rewrite (step_Fulfil_inflight ridB itemsB w HB).
  rewrite step_Fulfil_inflight.
  - repeat split; reflexivity.
  - rewrite isInflight_fulfilled, isInflight_settle_other; assumption.
Qed.

(** *** The rejected fetch *)

(** What the [catch] and [finally] blocks do and what they leave alone:
    the result set is emptied, the error is the fixed message, loading is
    false, the console and the error callback (when given) receive the
    thrown [Error], or an [Error] made from the thrown string; the open
    flag and the highlighted index are not written. *)
Lemma handleSearch_rejected_effects err w :
  let w' := handleSearch_rejected props err w in
  results (ui w') = []
  /\ error (ui w') = Some "Failed to fetch search results"
  /\ isLoading (ui w') = false
  /\ trace w' = trace w ++ ConsoleError (asError err)
                  :: (if onError props then [ErrorCallback (asError err)] else [])
  /\ isOpen (ui w') = isOpen (ui w)
  /\ selectedIndex (ui w') = selectedIndex (ui w).
Proof.
  unfold handleSearch_rejected.
  destruct (onError props); unfold_handlers;
    rewrite <- ?app_assoc; repeat split; reflexivity.
Qed.

(** *** The highlighted index *)

(** Arrow keys keep a highlighted index that is in bounds in bounds. *)
Lemma arrow_keys_keep_index_in_bounds w (k : Key) :
  k = ArrowDown \/ k = ArrowUp ->
  indexInBounds (ui w) ->
  indexInBounds (ui (step props w (KeyDown k)))
  /\ results (ui (step props w (KeyDown k))) = results (ui w).
Proof.
  unfold indexInBounds. intros [-> | ->] Hb; simpl; unfold_handlers.
  - destruct (Z.ltb_spec (selectedIndex (ui w)) (Z.of_nat (length (results (ui w))) - 1));
      split; try reflexivity; lia.
  - destruct (Z.ltb_spec 0 (selectedIndex (ui w))); split; try reflexivity; lia.
Qed.

Lemma run_arrow_keys_in_bounds (ks : list Key) w :
  Forall (fun k => k = ArrowDown \/ k = ArrowUp) ks ->
  indexInBounds (ui w) ->
  indexInBounds (ui (run props w (map KeyDown ks))).
Proof.
  revert w. induction ks as [|k ks IH]; intros w Hks Hb; simpl; [exact Hb|].
  inversion Hks as [|? ? Hk Hks']; subst.
  apply IH; [assumption|].
  now apply arrow_keys_keep_index_in_bounds.
Qed.

(** The paths that replace the result set and reset the index with it. *)
Lemma fulfilled_resets_index items w :
  selectedIndex (ui (handleSearch_fulfilled items w)) = -1.
Proof. reflexivity. Qed.

(** *** Debounce *)


Lemma change_justTyped v w :
  timersOk w = true ->
  let w' := step props w (Change v) in
  justTyped props v w' /\ trace w' = trace w.
Proof.
  intros Hok. simpl. unfold handleInputChange, andThen, justTyped.
  change (debounceTimer (setQuery v w)) with (debounceTimer w).
  unfold timersOk in Hok.
  destruct (timers w) as [|tm [|tm' tms]] eqn:Et; [| |discriminate].
  - destruct (debounceTimer w) as [id|]; unfold_handlers; rewrite Et;
      repeat split; try reflexivity; discriminate.
  - destruct (debounceTimer w) as [id|]; [|discriminate].
    unfold_handlers. rewrite Et. simpl. rewrite Hok. simpl.
    repeat split; try reflexivity; discriminate.
Qed.





(** *** Where the highlighted index stays in bounds *)

Lemma handleSelectItem_index item w :
  indexInBounds (ui (handleSelectItem props item w)).
Proof.
  unfold handleSelectItem, indexInBounds.
  destruct (onSelect props); unfold_handlers; simpl; lia.
Qed.

Lemma handleSearch_fetch_keeps_ui_lists q w :
  (Z.of_nat (String.length q) <? validMinQueryLength props) = false ->
  results (ui (handleSearch props q w)) = results (ui w)
  /\ selectedIndex (ui (handleSearch props q w)) = selectedIndex (ui w).
Proof. intros E. unfold handleSearch. rewrite E. split; reflexivity. Qed.

(** Every event but a rejected fetch and the passing of time (which may
    run the minimum-length path of the debounced search) keeps the
    highlighted index in bounds. *)
Lemma step_keeps_index_in_bounds w ev :
  match ev with Elapse _ | Reject _ _ => False | _ => True end ->
  indexInBounds (ui w) ->
  indexInBounds (ui (step props w ev)).
Proof.
  intros Hev Hb.
  destruct ev as [v|k|i|i| | | |dt|rid items|rid err]; try contradiction.
  - cbn [step]. unfold handleInputChange, andThen.
    change (debounceTimer (setQuery v w)) with (debounceTimer w).
    destruct (debounceTimer w); exact Hb.
  - destruct k.
    + now apply arrow_keys_keep_index_in_bounds; [left|].
    + now apply arrow_keys_keep_index_in_bounds; [right|].
    + cbn [step handleKeyDown].
      destruct (0 <=? selectedIndex (ui w)); [|exact Hb].
      destruct (results (ui w) !! Z.to_nat (selectedIndex (ui w))); [|exact Hb].
      apply handleSelectItem_index.
    + unfold indexInBounds in *. cbn [step handleKeyDown]. unfold_handlers. lia.
    + exact Hb.
  - cbn [step]. destruct (itemsRendered w); [|exact Hb].
    destruct (results (ui w) !! i) eqn:Ei; [|exact Hb].
    apply lookup_lt_Some in Ei. unfold indexInBounds. unfold_handlers. lia.
  - cbn [step]. destruct (itemsRendered w); [|exact Hb].
    destruct (results (ui w) !! i); [|exact Hb]. apply handleSelectItem_index.
  - cbn [step]. destruct (Js.isEmpty (query (ui w))); [exact Hb|].
    unfold indexInBounds. unfold_handlers. simpl. lia.
  - cbn [step]. unfold handleFocus. destruct (Js.isEmpty (query (ui w))); exact Hb.
  - cbn [step]. unfold handleClickOutside. destruct (isOpen (ui w)); exact Hb.
  - cbn [step]. destruct (isInflight rid w); [|exact Hb].
    unfold indexInBounds. unfold_handlers. lia.
Qed.

(** *** The timer queue of a reachable world *)

Lemma handleSearch_timers q w :
  timers (handleSearch props q w) = timers w
  /\ debounceTimer (handleSearch props q w) = debounceTimer w.
Proof.
  unfold handleSearch.
  destruct (Z.of_nat (String.length q) <? validMinQueryLength props);
    split; reflexivity.
Qed.

Lemma fold_handleSearch_timers (tms : list Timer) : forall w,
  let w' := fold_left (fun w0 tm => handleSearch props (timer_value tm) w0) tms w in
  timers w' = timers w /\ debounceTimer w' = debounceTimer w.
Proof.
  induction tms as [|tm tms IH]; intros w; [split; reflexivity|].
  cbn [fold_left]. cbn zeta in *.
  destruct (IH (handleSearch props (timer_value tm) w)) as (E1 & E2).
  destruct (handleSearch_timers (timer_value tm) w) as (E3 & E4).
  rewrite E1, E2, E3, E4. split; reflexivity.
Qed.

Lemma handleSelectItem_timers item w :
  timers (handleSelectItem props item w) = timers w
  /\ debounceTimer (handleSelectItem props item w) = debounceTimer w.
Proof.
  unfold handleSelectItem. destruct (onSelect props); split; reflexivity.
Qed.

Lemma step_timersOk w ev : timersOk w = true -> timersOk (step props w ev) = true.
Proof.
  intros Hok.
  assert (Hsame : forall w', timers w' = timers w ->
                             debounceTimer w' = debounceTimer w ->
                             timersOk w' = true).
  { intros w' E1 E2. unfold timersOk. rewrite E1, E2. exact Hok. }
  destruct ev as [v|k|i|i| | | |dt|rid items|rid err].
  - destruct (change_justTyped v w Hok) as ((Et & Href & _) & _).
    cbn zeta in *. unfold timersOk. rewrite Et.
    destruct (debounceTimer (step props w (Change v))); [|congruence].
    apply Nat.eqb_refl.
  - destruct k; cbn [step handleKeyDown]; try (apply Hsame; reflexivity).
    destruct (0 <=? selectedIndex (ui w)); [|exact Hok].
    destruct (results (ui w) !! Z.to_nat (selectedIndex (ui w))); [|exact Hok].
    apply Hsame; apply handleSelectItem_timers.
  - cbn [step]. destruct (itemsRendered w); [|exact Hok].
    destruct (results (ui w) !! i); [|exact Hok]. apply Hsame; reflexivity.
  - cbn [step]. destruct (itemsRendered w); [|exact Hok].
    destruct (results (ui w) !! i); [|exact Hok].
    apply Hsame; apply handleSelectItem_timers.
  - cbn [step]. destruct (Js.isEmpty (query (ui w))); [exact Hok|].
    apply Hsame; reflexivity.
  - cbn [step]. unfold handleFocus. destruct (Js.isEmpty (query (ui w))); [exact Hok|].
    apply Hsame; reflexivity.
  - cbn [step]. unfold handleClickOutside. destruct (isOpen (ui w)); [|exact Hok].
    apply Hsame; reflexivity.
  - cbn [step]. unfold elapse, andThen, fireDueTimers.
    match goal with
    | |- timersOk (fold_left _ ?tms ?w0) = true =>
        destruct (fold_handleSearch_timers tms w0) as (E1 & E2)
    end.
    cbn zeta in *. unfold timersOk in *. rewrite E1, E2.
    cbn [timers debounceTimer advanceClock].
    destruct (timers w) as [|tm [|tm' tms]]; [reflexivity| |discriminate].
    cbn [List.filter]. destruct (isDue _ tm); [reflexivity|exact Hok].
  - cbn [step]. destruct (isInflight rid w); [|exact Hok]. apply Hsame; reflexivity.
  - cbn [step]. destruct (isInflight rid w); [|exact Hok].
    unfold andThen, handleSearch_rejected.
    destruct (onError props); apply Hsame; reflexivity.
Qed.

(** In every reachable world at most one debounce timer is pending. *)
Lemma reachable_timersOk w : reachable props w -> timersOk w = true.
Proof.
  induction 1 as [|w ev _ IH]; [reflexivity|]. now apply step_timersOk.
Qed.

End Facts.

(* ------------------------------------------------------------------ *)
(** *** Concrete runs *)

Import Samples.

(** C1, the claim as written fails.  The fetch for ["r"] is issued, then
    the fetch for ["re"]; the second one is fulfilled with [[vue]] and the
    first one after it with [[react]].  The result set shown is [[react]],
    the items of the request that was issued first. *)
Lemma stale_response_replaces_fresh_one :
  let w := twoPending in
  let w' := run defaultProps w [Fulfil 1 [vue]; Fulfil 0 [react]] in
  fetchCalls (trace w) = [("r", 10); ("re", 10)]
  /\ map request_query (inflight w) = ["r"; "re"]
  /\ map request_id (inflight w) = [0; 1]%nat
  /\ results (ui (step defaultProps w (Fulfil 1 [vue]))) = [vue]
  /\ results (ui w') = [react]
  /\ results (ui w') <> [vue].
Proof. vm_compute. repeat split; try reflexivity. discriminate. Qed.

Lemma last_settled_response_wins_witness :
  isInflight 0 twoPending = true
  /\ isInflight 1 twoPending = true
  /\ 0%nat <> 1%nat
  /\ (let w' := run defaultProps twoPending [Fulfil 1 [vue]; Fulfil 0 [react]] in
      results (ui w') = [react]
      /\ isOpen (ui w') = (0 <? Z.of_nat (length [react]))
      /\ selectedIndex (ui w') = -1).
Proof.
  split; [reflexivity|]. split; [reflexivity|]. split; [discriminate|].
  apply (last_settled_response_wins defaultProps twoPending 0 1 [react] [vue]);
    [reflexivity|reflexivity|discriminate].
Defined.

(** C2, at the failing input.  Two results are shown and the second one is
    highlighted; the user empties the input and the debounced search takes
    the minimum-length path; or the user types on and the fetch is
    rejected.  Either way the result set is emptied and the highlighted
    index stays 1: a reachable state in which the index is neither -1 nor
    an index into the result set. *)
Theorem index_dangles_after_results_are_cleared :
  let w1 := run defaultProps openOnTwo [Change ""; Elapse 300] in
  let w2 := run defaultProps openOnTwo
              [Change "ab"; Elapse 300;
               Reject 1 (ThrownError (mkError "Network error"))] in
  reachable defaultProps w1 /\ reachable defaultProps w2
  /\ indexInBounds (ui openOnTwo)
  /\ results (ui w1) = [] /\ selectedIndex (ui w1) = 1
  /\ results (ui w2) = [] /\ selectedIndex (ui w2) = 1
  /\ ~ indexInBounds (ui w1) /\ ~ indexInBounds (ui w2).
Proof.
  split; [repeat apply run_reachable; constructor|].
  split; [repeat apply run_reachable; constructor|].
  split; [vm_compute; split; discriminate|].
  repeat split; try reflexivity; vm_compute; intros [_ Hle]; apply Hle; reflexivity.
Qed.

(** C3, at the failing input.  The dropdown is open on one result when a
    second fetch is rejected with [Error("Network error")].  The result
    set is emptied, the fixed message is shown, loading is false and the
    error callback receives the error, but the open flag is still true. *)
Theorem rejected_fetch_leaves_dropdown_open :
  let p := mkProps 10 300 1 false true in
  let w := run p initialWorld
             [Change "r"; Elapse 300; Fulfil 0 [react]; Change "re"; Elapse 300] in
  let w' := step p w (Reject 1 (ThrownError (mkError "Network error"))) in
  isOpen (ui w) = true /\ isInflight 1 w = true
  /\ results (ui w') = []
  /\ error (ui w') = Some "Failed to fetch search results"
  /\ isLoading (ui w') = false
  /\ In (ErrorCallback (mkError "Network error")) (trace w')
  /\ isOpen (ui w') = true.
Proof.
  vm_compute. repeat split; try reflexivity. right. right. right. left. reflexivity.
Qed.

Lemma selection_contract_witness :
  results (ui openOnTwo) !! 1%nat = Some vue
  /\ selectedIndex (ui openOnTwo) = Z.of_nat 1
  /\ itemsRendered openOnTwo = true
  /\ selectionCommitted defaultProps vue openOnTwo
       (step defaultProps openOnTwo (KeyDown Enter))
  /\ selectionCommitted defaultProps vue openOnTwo
       (step defaultProps openOnTwo (Click 1)).
Proof.
  split; [reflexivity|]. split; [reflexivity|]. split; [reflexivity|].
  destruct (selection_contract defaultProps openOnTwo 1 vue eq_refl) as [HE HC].
  split; [apply HE; reflexivity|apply HC; reflexivity].
Defined.



Lemma short_query_takes_local_path_witness :
  Z.of_nat (String.length "") < minQueryLength defaultProps
  /\ (let w' := handleSearch defaultProps "" openOnTwo in
      results (ui w') = [] /\ isOpen (ui w') = false /\ error (ui w') = None
      /\ trace w' = trace openOnTwo /\ inflight w' = inflight openOnTwo
      /\ nextRequestId w' = nextRequestId openOnTwo
      /\ isLoading (ui w') = isLoading (ui openOnTwo)
      /\ timers w' = timers openOnTwo
      /\ minQueryLength defaultProps = 1).
Proof.
  split; [reflexivity|].
  apply (short_query_takes_local_path defaultProps openOnTwo ""). reflexivity.
Defined.

(** C7, the claim as written fails.  Escape on the open dropdown closes it
    and keeps both results. *)
Lemma escape_retains_results :
  let w' := step defaultProps openOnTwo (KeyDown Escape) in
  isOpen (ui openOnTwo) = true
  /\ isOpen (ui w') = false
  /\ results (ui w') = [react; vue]
  /\ results (ui w') <> [].
Proof. vm_compute. repeat split; try reflexivity. discriminate. Qed.

(* ------------------------------------------------------------------ *)
(** *** The mock search service *)

(** For every limit but zero, and for a limit that is left out,
    [searchItems] returns what the specification describes. *)
Lemma searchItems_meets_spec (query : string) (limit : option Z) :
  limit <> Some 0 ->
  Api.searchItems query limit = Api.searchItems_spec query limit.
Proof.
  intros Hnz. unfold Api.searchItems, Api.searchItems_spec.
  destruct (Js.isEmpty (Js.toLowerCase (Js.trim query))); [reflexivity|].
  unfold Api.slice0. f_equal. f_equal.
  unfold Api.validLimit, Api.limitOr10, Api.clamp_1_100, Js.Math_min, Js.Math_max.
  destruct limit as [l|]; [|reflexivity].
  destruct (Z.eqb_spec l 0) as [->|_]; [congruence|lia].
Qed.

(** An empty or blank query has no results, whatever the limit. *)
Lemma searchItems_blank_query (limit : option Z) :
  Api.searchItems "" limit = [] /\ Api.searchItems "   " limit = [].
Proof. split; reflexivity. Qed.

(** C9, at the failing input.  All eight mock items contain ["a"].  With
    limit 0 the specification's clamp gives 1, hence one item;
    [Number(limit) || 10] turns the 0 into 10 and [searchItems] returns
    all eight. *)
Theorem searchItems_zero_limit_is_ten :
  Api.validLimit 0 = 10
  /\ Api.clamp_1_100 0 = 1
  /\ Api.searchItems "a" (Some 0) = Api.MOCK_ITEMS
  /\ length (Api.searchItems "a" (Some 0)) = 8%nat
  /\ length (Api.searchItems_spec "a" (Some 0)) = 1%nat
  /\ Api.searchItems "a" (Some (-5)) = Api.searchItems_spec "a" (Some 0).
Proof. vm_compute. repeat split; reflexivity. Qed.


(* ================================================================== *)
(** ** Further properties of the mock search service *)

Section JsStrings.
Import Js.

Lemma lowerChar_isWhiteSpace (c : ascii) :
  isWhiteSpace (lowerChar c) = isWhiteSpace c.
Proof. destruct c as [[] [] [] [] [] [] [] []]; reflexivity. Qed.

Lemma lowerChar_idempotent (c : ascii) : lowerChar (lowerChar c) = lowerChar c.
Proof. destruct c as [[] [] [] [] [] [] [] []]; reflexivity. Qed.

Lemma toLowerCase_idempotent (s : string) :
  toLowerCase (toLowerCase s) = toLowerCase s.
Proof.
  induction s as [|c r IH]; [reflexivity|].
  cbn [toLowerCase]. now rewrite lowerChar_idempotent, IH.
Qed.

Lemma toLowerCase_trimStart (s : string) :
  toLowerCase (trimStart s) = trimStart (toLowerCase s).
Proof.
  induction s as [|c r IH]; [reflexivity|].
  cbn [trimStart toLowerCase]. rewrite lowerChar_isWhiteSpace.
  destruct (isWhiteSpace c); [exact IH|reflexivity].
Qed.

Lemma toLowerCase_trimEnd (s : string) :
  toLowerCase (trimEnd s) = trimEnd (toLowerCase s).
Proof.
  induction s as [|c r IH]; [reflexivity|].
  cbn [trimEnd toLowerCase]. rewrite <- IH, lowerChar_isWhiteSpace.
  destruct (trimEnd r) as [|a r']; cbn [toLowerCase].
  - destruct (isWhiteSpace c); reflexivity.
  - reflexivity.
Qed.

Lemma toLowerCase_trim (s : string) : toLowerCase (trim s) = trim (toLowerCase s).
Proof. unfold trim. now rewrite toLowerCase_trimEnd, toLowerCase_trimStart. Qed.

Lemma trimStart_noLeadingSpace (s : string) : noLeadingSpace (trimStart s).
Proof.
  induction s as [|c r IH]; [exact I|].
  cbn [trimStart]. destruct (isWhiteSpace c) eqn:E; [exact IH|exact E].
Qed.

Lemma trimStart_fixed (s : string) : noLeadingSpace s -> trimStart s = s.
Proof. destruct s as [|c r]; [reflexivity|]. cbn. now intros ->. Qed.

Lemma trimEnd_noLeadingSpace (s : string) :
  noLeadingSpace s -> noLeadingSpace (trimEnd s).
Proof.
  destruct s as [|c r]; [intros; exact I|]. cbn [noLeadingSpace trimEnd].
  intros E. rewrite E. destruct (trimEnd r); exact E.
Qed.

Lemma trimEnd_idempotent (s : string) : trimEnd (trimEnd s) = trimEnd s.
Proof.
  induction s as [|c r IH]; [reflexivity|].
  cbn [trimEnd]. destruct (trimEnd r) as [|a r'] eqn:E.
  - destruct (isWhiteSpace c) eqn:Ec; [reflexivity|].
    cbn [trimEnd]. now rewrite Ec.
  - change (trimEnd (String c (String a r')))
      with (match trimEnd (String a r') with
            | EmptyString => if isWhiteSpace c then EmptyString
                             else String c EmptyString
            | r0 => String c r0
            end).
    now rewrite IH.
Qed.

Lemma trim_idempotent (s : string) : trim (trim s) = trim s.
Proof.
  unfold trim.
  rewrite (trimStart_fixed (trimEnd (trimStart s))).
  - apply trimEnd_idempotent.
  - apply trimEnd_noLeadingSpace, trimStart_noLeadingSpace.
Qed.

Lemma trimStart_blank (s : string) :
  allChars isWhiteSpace s = true -> trimStart s = "".
Proof.
  induction s as [|c r IH]; [reflexivity|].
  cbn [allChars trimStart]. intros E. apply andb_prop in E as [Ec Er].
  rewrite Ec. now apply IH.
Qed.

Lemma prefix_app (sub s : string) :
  String.prefix sub s = true <-> exists post, s = (sub ++ post)%string.
Proof.
  revert s. induction sub as [|a sub IH]; intros s.
  - split; [intros _; exists s; reflexivity|intros _; destruct s; reflexivity].
  - destruct s as [|b s]; cbn [String.prefix].
    + split; [discriminate|intros [post E]; discriminate].
    + destruct (ascii_dec a b) as [->|Hne].
      * rewrite IH. split; intros [post E]; exists post.
        -- cbn. now rewrite E.
        -- cbn in E. now injection E.
      * split; [discriminate|]. intros [post E]. cbn in E. congruence.
Qed.

(** [includes] is the substring test. *)
Lemma includes_substring (s sub : string) :
  includes s sub = true <-> exists pre post, s = (pre ++ sub ++ post)%string.
Proof.
  induction s as [|c r IH].
  - cbn [includes]. rewrite orb_false_r, prefix_app. split.
    + intros [post E]. exists "", post. exact E.
    + intros (pre & post & E). destruct pre as [|a pre]; [|discriminate].
      exists post. exact E.
  - cbn [includes]. rewrite orb_true_iff, prefix_app, IH. split.
    + intros [[post E] | (pre & post & E)].
      * exists "", post. exact E.
      * exists (String c pre), post. cbn. now rewrite E.
    + intros (pre & post & E). destruct pre as [|a pre].
      * left. exists post. exact E.
      * right. cbn in E. injection E as _ E. exists pre, post. exact E.
Qed.

Lemma allChars_app (p : ascii -> bool) (s t : string) :
  allChars p (s ++ t)%string = allChars p s && allChars p t.
Proof.
  induction s as [|c r IH]; [reflexivity|].
  cbn. now rewrite IH, andb_assoc.
Qed.

Lemma fold_setAdd (values : list string) : forall seen,
  List.NoDup seen ->
  List.NoDup (fold_left setAdd values seen)
  /\ forall x, In x (fold_left setAdd values seen) <-> In x seen \/ In x values.
Proof.
  induction values as [|v values IH]; intros seen Hnd; cbn [fold_left].
  - split; [exact Hnd|]. intros x. cbn. tauto.
  - assert (Hstep : List.NoDup (setAdd seen v)
                    /\ forall x, In x (setAdd seen v) <-> In x seen \/ x = v).
    { unfold setAdd. destruct (existsb (String.eqb v) seen) eqn:E.
      - split; [exact Hnd|]. intros x. split; [tauto|].
        intros [Hx | ->]; [exact Hx|].
        apply existsb_exists in E as (y & Hy & Eq).
        apply String.eqb_eq in Eq. now subst.
      - split.
        + apply NoDup_ListNoDup, NoDup_app. repeat split.
          * now apply NoDup_ListNoDup.
          * intros x Hx Hx'. apply list_elem_of_In in Hx, Hx'.
            destruct Hx' as [<-|[]].
            assert (existsb (String.eqb v) seen = true); [|congruence].
            apply existsb_exists. exists v. split; [exact Hx|apply String.eqb_refl].
          * apply NoDup_ListNoDup. repeat constructor. intros [].
        + intros x. rewrite in_app_iff. cbn. intuition congruence. }
    destruct Hstep as (Hnd' & Hin').
    destruct (IH _ Hnd') as (IH1 & IH2). split; [exact IH1|].
    intros x. rewrite IH2, Hin'. cbn. intuition congruence.
Qed.

End JsStrings.

Section ApiFacts.
Import Js Api.

Lemma searchItems_unfold (query : string) (limit : option Z) :
  searchItems query limit
  = if isEmpty (sanitize query) then []
    else firstn (Z.to_nat (appliedLimit limit))
           (List.filter (fun item => includes (searchableText item) (sanitize query))
                        MOCK_ITEMS).
Proof. reflexivity. Qed.

Lemma appliedLimit_bounds (limit : option Z) : 1 <= appliedLimit limit <= 100.
Proof.
  unfold appliedLimit, validLimit, limitOr10, Math_min, Math_max.
  destruct limit as [l|]; [destruct (l =? 0)|]; lia.
Qed.

Lemma sanitize_toLowerCase (q : string) : sanitize (toLowerCase q) = sanitize q.
Proof.
  unfold sanitize. now rewrite <- toLowerCase_trim, toLowerCase_idempotent.
Qed.

Lemma sanitize_trim (q : string) : sanitize (trim q) = sanitize q.
Proof. unfold sanitize. now rewrite trim_idempotent. Qed.

(** X1.  [searchItems] never returns more items than the limit it
    applies, which lies between 1 and 100 whatever limit it is given. *)
Theorem searchItems_length_bounded (query : string) (limit : option Z) :
  1 <= appliedLimit limit <= 100
  /\ Z.of_nat (length (searchItems query limit)) <= appliedLimit limit
  /\ (length (searchItems query limit) <= length MOCK_ITEMS)%nat.
Proof.
  pose proof (appliedLimit_bounds limit) as Hb.
  split; [exact Hb|]. rewrite searchItems_unfold.
  destruct (isEmpty (sanitize query)); [cbn; lia|].
  rewrite length_take.
  pose proof (filter_length_le
                (fun item => includes (searchableText item) (sanitize query))
                MOCK_ITEMS).
  lia.
Qed.

(** X2.  Every item [searchItems] returns is a mock item whose searchable
    text contains the sanitized query as a contiguous substring, and the
    items come in the order of the mock data. *)
Theorem searchItems_sound (query : string) (limit : option Z) (item : SearchItem) :
  In item (searchItems query limit) ->
  In item MOCK_ITEMS
  /\ sanitize query <> ""
  /\ (exists pre post,
        searchableText item = (pre ++ sanitize query ++ post)%string)
  /\ sublist (searchItems query limit) MOCK_ITEMS.
Proof.
  rewrite searchItems_unfold.
  destruct (sanitize query) as [|c q'] eqn:Eq; [intros []|].
  cbn [isEmpty]. intros Hin.
  apply list_elem_of_In, (subseteq_take (Z.to_nat (appliedLimit limit))),
    list_elem_of_In in Hin.
  apply filter_In in Hin as [HM Hinc].
  split; [exact HM|]. split; [discriminate|]. split.
  - now apply includes_substring.
  - etransitivity; [apply sublist_take|].
    clear. induction MOCK_ITEMS as [|x l IH]; [constructor|].
    cbn [List.filter].
    destruct (includes (searchableText x) (String c q'));
      [now apply sublist_skip|now apply sublist_cons].
Qed.

(** X3.  With a limit of at least the size of the mock data, and so with
    the default limit, [searchItems] returns every mock item that
    contains the query. *)
Theorem searchItems_complete (query : string) (limit : option Z) (item : SearchItem) :
  Z.of_nat (length MOCK_ITEMS) <= appliedLimit limit ->
  sanitize query <> "" ->
  In item MOCK_ITEMS ->
  includes (searchableText item) (sanitize query) = true ->
  In item (searchItems query limit).
Proof.
  intros Hl Hq HM Hinc. rewrite searchItems_unfold.
  destruct (sanitize query) as [|c q'] eqn:Eq; [congruence|]. cbn [isEmpty].
  rewrite take_ge.
  - apply filter_In. split; assumption.
  - pose proof (filter_length_le
                  (fun item => includes (searchableText item) (String c q'))
                  MOCK_ITEMS).
    lia.
Qed.

(** X4.  The search is case-insensitive in the query: two queries with the
    same lower-case form have the same results. *)
Theorem searchItems_case_insensitive (q1 q2 : string) (limit : option Z) :
  toLowerCase q1 = toLowerCase q2 ->
  searchItems q1 limit = searchItems q2 limit.
Proof.
  intros E. rewrite !searchItems_unfold.
  rewrite <- (sanitize_toLowerCase q1), <- (sanitize_toLowerCase q2), E.
  reflexivity.
Qed.

(** X5.  White space around the query is ignored, and a query of white
    space only has no results. *)
Theorem searchItems_ignores_surrounding_space (query : string) (limit : option Z) :
  searchItems (trim query) limit = searchItems query limit
  /\ (allChars isWhiteSpace query = true -> searchItems query limit = []).
Proof.
  split.
  - rewrite !searchItems_unfold, sanitize_trim. reflexivity.
  - intros Hb. rewrite searchItems_unfold. unfold sanitize, trim.
    rewrite (trimStart_blank query Hb). reflexivity.
Qed.

(** X6.  A larger applied limit only extends the result list: the results
    for the smaller limit are a prefix of the results for the larger. *)
Theorem searchItems_monotone_in_limit (query : string) (l1 l2 : option Z) :
  appliedLimit l1 <= appliedLimit l2 ->
  searchItems query l1 `prefix_of` searchItems query l2.
Proof.
  intros Hle. rewrite !searchItems_unfold.
  destruct (isEmpty (sanitize query)); [reflexivity|].
  set (filtered := List.filter _ MOCK_ITEMS).
  replace (take (Z.to_nat (appliedLimit l1)) filtered)
    with (take (Z.to_nat (appliedLimit l1))
               (take (Z.to_nat (appliedLimit l2)) filtered)).
  - apply prefix_take.
  - rewrite take_take. f_equal. lia.
Qed.

Lemma mock_ids_safe : Forall (fun item => isSafeId (id item) = true) MOCK_ITEMS.
Proof. repeat constructor. Qed.

Lemma mock_ids_distinct : List.NoDup (map id MOCK_ITEMS).
Proof.
  apply NoDup_ListNoDup. unfold MOCK_ITEMS. cbn [map id].
  repeat (apply NoDup_cons; split;
          [rewrite ?elem_of_cons, elem_of_nil; intuition discriminate|]).
  apply NoDup_nil_2.
Qed.

Lemma find_by_id (items : list SearchItem) (item : SearchItem) :
  List.NoDup (map id items) ->
  In item items ->
  List.find (fun x => String.eqb (id x) (id item)) items = Some item.
Proof.
  induction items as [|x l IH]; intros Hnd Hin; [destruct Hin|].
  cbn [List.find]. inversion Hnd as [|? ? Hx Hl]; subst.
  destruct Hin as [->|Hin]; [now rewrite String.eqb_refl|].
  destruct (String.eqb_spec (id x) (id item)) as [E|_]; [|now apply IH].
  exfalso. apply Hx. rewrite E. now apply in_map.
Qed.

(** X7.  [getItemById] is the lookup of the mock data by id: it returns an
    item exactly when that item is in the mock data and has the id asked
    for. *)
Theorem getItemById_lookup (itemId : string) (item : SearchItem) :
  getItemById itemId = Some item <-> In item MOCK_ITEMS /\ id item = itemId.
Proof.
  unfold getItemById. split.
  - destruct (isSafeId itemId); [|discriminate]. cbn [negb]. intros E.
    apply find_some in E as [HM E]. apply String.eqb_eq in E. now split.
  - intros [HM <-].
    pose proof mock_ids_safe as Hs. rewrite List.Forall_forall in Hs.
    rewrite (Hs item HM). cbn [negb].
    apply find_by_id; [apply mock_ids_distinct|exact HM].
Qed.

(** X8.  An id that is empty, or that has a character outside
    [A-Z a-z 0-9 - _] anywhere, is answered with [null]. *)
Theorem getItemById_rejects_unsafe (pre post : string) (c : ascii) :
  isSafeIdChar c = false ->
  getItemById (pre ++ String c post) = None /\ getItemById "" = None.
Proof.
  intros Hc. split; [|reflexivity].
  unfold getItemById, isSafeId. rewrite allChars_app. cbn [allChars].
  rewrite Hc, andb_false_r, andb_false_r. reflexivity.
Qed.

(** X9.  The categories are distinct, and a string is among them exactly
    when it is the non-empty category of one of the items. *)
Theorem categories_distinct_and_exact (items : list SearchItem) :
  List.NoDup (categoriesOf items)
  /\ (forall c, In c (categoriesOf items)
                <-> exists item, In item items /\ category item = Some c /\ c <> "")
  /\ getCategories = categoriesOf MOCK_ITEMS.
Proof.
  unfold categoriesOf, newSet.
  destruct (fold_setAdd
              (omap (fun v => v) (List.filter truthy (map category items))) []
              (List.NoDup_nil _)) as (Hnd & Hin).
  split; [exact Hnd|]. split; [|reflexivity].
  intros c. rewrite Hin. cbn [In].
  rewrite <- list_elem_of_In, list_elem_of_omap. split.
  - intros [[]|(v & Hv & ->)].
    apply list_elem_of_In, filter_In in Hv as [Hv Ht].
    apply in_map_iff in Hv as (item & Ecat & Hitem).
    exists item. split; [exact Hitem|]. split; [exact Ecat|].
    intros ->. discriminate.
  - intros (item & Hitem & Ecat & Hne). right. exists (Some c). split; [|reflexivity].
    apply list_elem_of_In, filter_In. split.
    + apply in_map_iff. exists item. now split.
    + destruct c; [congruence|reflexivity].
Qed.

End ApiFacts.

(* ================================================================== *)
(** ** Further properties of the component *)

Section EngineFacts.
Context {T : Type} `{AutocompleteItem T}.
Variable props : Props.
Implicit Types (w : @World T) (s : @State T).

(** *** Proving an invariant of the reachable worlds

    It is enough to show it for the initial world and to show that each
    handler keeps it. *)
Lemma elapse_preserves (P : @World T -> Prop) :
  (forall w tms t, P w ->
     P (mkWorld (ui w) (debounceTimer w) tms (nextTimerId w) t
                (inflight w) (nextRequestId w) (trace w))) ->
  (forall q w, P w -> P (handleSearch props q w)) ->
  forall dt w, P w -> P (elapse props dt w).
Proof.
  intros Hframe Hsearch dt w Hw. unfold elapse, andThen, fireDueTimers.
  set (due := List.filter _ _). set (rest := List.filter _ _).
  assert (H0 : P (mkWorld (ui w) (debounceTimer w) rest (nextTimerId w)
                          (now w + Z.max 0 dt) (inflight w) (nextRequestId w)
                          (trace w))) by now apply Hframe.
  revert H0. clearbody due rest.
  change (ui (advanceClock dt w)) with (ui w).
  change (debounceTimer (advanceClock dt w)) with (debounceTimer w).
  change (nextTimerId (advanceClock dt w)) with (nextTimerId w).
  change (now (advanceClock dt w)) with (now w + Z.max 0 dt).
  change (inflight (advanceClock dt w)) with (inflight w).
  change (nextRequestId (advanceClock dt w)) with (nextRequestId w).
  change (trace (advanceClock dt w)) with (trace w).
  generalize (mkWorld (ui w) (debounceTimer w) rest (nextTimerId w)
                      (now w + Z.max 0 dt) (inflight w) (nextRequestId w)
                      (trace w)).
  induction due as [|tm due IH]; intros w0 H0; cbn [fold_left]; [exact H0|].
  apply IH, Hsearch, H0.
Qed.

Lemma step_preserves (P : @World T -> Prop) :
  (forall w tms ref next t, P w ->
     P (mkWorld (ui w) ref tms next t (inflight w) (nextRequestId w) (trace w))) ->
  (forall w v, P w -> P (setQuery v w)) ->
  (forall w f, P w -> P (updSelectedIndex f w)) ->
  (forall w b, P w -> P (setIsOpen b w)) ->
  (forall w item, P w -> P (handleSelectItem props item w)) ->
  (forall w, P w -> P (handleClear w)) ->
  (forall q w, P w -> P (handleSearch props q w)) ->
  (forall w rid items, P w -> P (handleSearch_fulfilled items (settle rid w))) ->
  (forall w rid err, P w -> P (handleSearch_rejected props err (settle rid w))) ->
  forall w ev, P w -> P (step props w ev).
Proof.
  intros Hframe Hquery Hindex Hopen Hselect Hclear Hsearch Hok Herr w ev Hw.
  destruct ev as [v|k|i|i| | | |dt|rid items|rid err]; cbn [step].
  - unfold handleInputChange, andThen.
    change (debounceTimer (setQuery v w)) with (debounceTimer w).
    destruct (debounceTimer w) as [id|].
    + apply (Hframe (setQuery v w)), Hquery, Hw.
    + apply (Hframe (setQuery v w)), Hquery, Hw.
  - destruct k; cbn [handleKeyDown].
    + apply Hindex, Hw.
    + apply Hindex, Hw.
    + destruct (0 <=? selectedIndex (ui w)); [|exact Hw].
      destruct (results (ui w) !! Z.to_nat (selectedIndex (ui w))); [|exact Hw].
      apply Hselect, Hw.
    + unfold andThen, setSelectedIndex. apply Hindex, Hopen, Hw.
    + exact Hw.
  - destruct (itemsRendered w); [|exact Hw].
    destruct (results (ui w) !! i); [|exact Hw]. apply Hindex, Hw.
  - destruct (itemsRendered w); [|exact Hw].
    destruct (results (ui w) !! i); [|exact Hw]. apply Hselect, Hw.
  - destruct (Js.isEmpty (query (ui w))); [exact Hw|]. apply Hclear, Hw.
  - unfold handleFocus. destruct (Js.isEmpty (query (ui w))); [exact Hw|].
    apply Hopen, Hw.
  - unfold handleClickOutside. destruct (isOpen (ui w)); [|exact Hw].
    apply Hopen, Hw.
  - apply elapse_preserves; [|exact Hsearch|exact Hw].
    intros w0 tms t. apply Hframe.
  - destruct (isInflight rid w); [|exact Hw]. apply Hok, Hw.
  - destruct (isInflight rid w); [|exact Hw]. apply Herr, Hw.
Qed.

Lemma reachable_preserves (P : @World T -> Prop) :
  P initialWorld ->
  (forall w ev, P w -> P (step props w ev)) ->
  forall w, reachable props w -> P w.
Proof. intros H0 Hstep w Hr. induction Hr; [exact H0|now apply Hstep]. Qed.

(** *** What the component calls *)

Lemma handleSearch_calls_ok q w :
  Forall (fun e => fetchCallOk props e /\ callbackSupplied props e) (trace w) ->
  Forall (fun e => fetchCallOk props e /\ callbackSupplied props e)
         (trace (handleSearch props q w)).
Proof.
  intros Hw. unfold handleSearch.
  destruct (Z.ltb_spec (Z.of_nat (String.length q)) (validMinQueryLength props)).
  - exact Hw.
  - unfold_handlers. apply Forall_app. split; [exact Hw|].
    repeat constructor. exact H0.
Qed.

Lemma calls_ok w :
  reachable props w ->
  Forall (fun e => fetchCallOk props e /\ callbackSupplied props e) (trace w).
Proof.
  revert w.
  apply (reachable_preserves
           (fun w => Forall (fun e => fetchCallOk props e /\ callbackSupplied props e)
                            (trace w))); [constructor|].
  apply step_preserves; try (intros; assumption).
  - intros w0 item Hw. unfold handleSelectItem.
    destruct (onSelect props) eqn:E; unfold_handlers; [|exact Hw].
    apply Forall_app. split; [exact Hw|]. repeat constructor. exact E.
  - intros w0 Hw. unfold_handlers. apply Forall_app. split; [exact Hw|].
    repeat constructor.
  - intros q w0. apply handleSearch_calls_ok.
  - intros w0 rid err Hw. unfold handleSearch_rejected.
    destruct (onError props) eqn:E; unfold_handlers.
    + apply Forall_app. split; [apply Forall_app; split; [exact Hw|]|];
        repeat constructor. exact E.
    + apply Forall_app. split; [exact Hw|]. repeat constructor.
Qed.

(** X10.  In every reachable world, each call of the fetch function so
    far had a query at least as long as the clamped minimum query length
    and the clamped result limit, which lies in [1,100]. *)
Theorem fetch_calls_respect_guard_and_limit w (q : string) (limit : Z) :
  reachable props w ->
  In (q, limit) (fetchCalls (trace w)) ->
  validMinQueryLength props <= Z.of_nat (String.length q)
  /\ limit = validMaxResults props
  /\ 1 <= limit <= 100.
Proof.
  intros Hr Hin. pose proof (calls_ok w Hr) as Hok.
  unfold fetchCalls in Hin. apply in_flat_map in Hin as (e & He & Hq).
  rewrite List.Forall_forall in Hok. destruct (Hok e He) as [Hf _].
  destruct e as [q0 l0| | | |]; cbn in Hq; try contradiction.
  destruct Hq as [Hq|[]]. injection Hq as -> ->. destruct Hf as [Hlen ->].
  repeat split; try assumption;
    unfold validMaxResults, Js.Math_max, Js.Math_min; lia.
Qed.

(** X11.  A callback the integrator did not supply is never called: in a
    reachable world the trace has a selection callback only if [onSelect]
    was given, and an error callback only if [onError] was given. *)
Theorem absent_callbacks_are_not_called w :
  reachable props w ->
  (onSelect props = false -> forall item, ~ In (SelectCallback item) (trace w))
  /\ (onError props = false -> forall e, ~ In (ErrorCallback e) (trace w)).
Proof.
  intros Hr. pose proof (calls_ok w Hr) as Hok.
  rewrite List.Forall_forall in Hok.
  split; intros Hoff x Hin; destruct (Hok _ Hin) as [_ Hs]; cbn in Hs; congruence.
Qed.

(** *** The error message *)

Lemma error_generic w :
  reachable props w ->
  error (ui w) = None \/ error (ui w) = Some "Failed to fetch search results".
Proof.
  revert w.
  apply (reachable_preserves
           (fun w => error (ui w) = None
                     \/ error (ui w) = Some "Failed to fetch search results"));
    [now left|].
  apply step_preserves; try (intros; assumption).
  - intros w0 item Hw. unfold handleSelectItem.
    destruct (onSelect props); exact Hw.
  - intros q w0 Hw. unfold handleSearch.
    destruct (_ <? _); now left.
  - intros w0 rid err _. unfold handleSearch_rejected.
    destruct (onError props); now right.
Qed.

(** X12.  Whatever the fetch function rejects with, the only error text
    the component ever holds, and the only text its alert box ever shows,
    is the fixed message. *)
Theorem alert_shows_only_the_fixed_message w :
  reachable props w ->
  (error (ui w) = None \/ error (ui w) = Some "Failed to fetch search results")
  /\ (alert (render (ui w)) = None
      \/ alert (render (ui w)) = Some "Failed to fetch search results").
Proof.
  intros Hr. pose proof (error_generic w Hr) as He. split; [exact He|].
  unfold render. cbn [alert]. destruct He as [-> | ->]; [now left|now right].
Qed.

(** *** The loading flag *)

(** X13.  The loading flag is set only while a fetch is pending: in every
    reachable world, [isLoading] implies that some promise of the fetch
    function has not settled. *)
Theorem loading_implies_pending_fetch w :
  reachable props w ->
  isLoading (ui w) = true ->
  inflight w <> [].
Proof.
  revert w.
  set (P := fun w : @World T => isLoading (ui w) = true -> inflight w <> []).
  apply (reachable_preserves P); [discriminate|].
  apply (step_preserves P); try (intros; assumption).
  - intros w0 item Hw. unfold handleSelectItem. destruct (onSelect props); exact Hw.
  - intros q w0 Hw. unfold handleSearch.
    destruct (_ <? _); [exact Hw|]. intros _. unfold_handlers.
    intros E. now apply app_eq_nil in E as [_ E].
  - intros w0 rid items _. discriminate.
  - intros w0 rid err _. unfold handleSearch_rejected.
    destruct (onError props); discriminate.
Qed.

(** *** The timer queue *)

(** X14.  In every reachable world at most one debounce timer is pending,
    and it is the one whose id the ref holds. *)
Theorem at_most_one_debounce_timer w :
  reachable props w ->
  (length (timers w) <= 1)%nat
  /\ forall tm, In tm (timers w) -> debounceTimer w = Some (timer_id tm).
Proof.
  intros Hr. pose proof (reachable_timersOk props w Hr) as Hok.
  unfold timersOk in Hok.
  destruct (timers w) as [|tm [|tm' tms]]; [| |discriminate].
  - split; [cbn; lia|intros tm []].
  - split; [cbn; lia|]. intros tm0 [<-|[]].
    destruct (debounceTimer w) as [id|]; [|discriminate].
    apply Nat.eqb_eq in Hok. now rewrite Hok.
Qed.

End EngineFacts.

Section EngineScenarios.
Context {T : Type} `{AutocompleteItem T}.
Variable props : Props.
Implicit Types (w : @World T) (s : @State T).

Lemma change_frame v w :
  ui (step props w (Change v))
  = mkState v (results (ui w)) (isOpen (ui w)) (isLoading (ui w))
            (selectedIndex (ui w)) (error (ui w))
  /\ inflight (step props w (Change v)) = inflight w
  /\ nextRequestId (step props w (Change v)) = nextRequestId w
  /\ trace (step props w (Change v)) = trace w
  /\ now (step props w (Change v)) = now w.
Proof.
  cbn [step]. unfold handleInputChange, andThen.
  change (debounceTimer (setQuery v w)) with (debounceTimer w).
  destruct (debounceTimer w); repeat split; reflexivity.
Qed.

Lemma elapse_fires_pending (id : nat) (fire : Z) (v : string) (dt : Z) w :
  timers w = [mkTimer id fire v] ->
  fire <= now w + Z.max 0 dt ->
  step props w (Elapse dt)
  = handleSearch props v
      (mkWorld (ui w) (debounceTimer w) [] (nextTimerId w) (now w + Z.max 0 dt)
               (inflight w) (nextRequestId w) (trace w)).
Proof.
  intros Et Hf. cbn [step]. unfold elapse, andThen, fireDueTimers.
  change (timers (advanceClock dt w)) with (timers w).
  change (now (advanceClock dt w)) with (now w + Z.max 0 dt).
  rewrite Et. cbn [List.filter].
  assert (Hd : isDue (now w + Z.max 0 dt) (mkTimer id fire v) = true)
    by (unfold isDue; cbn [fire_at]; now apply Z.leb_le).
  rewrite Hd. reflexivity.
Qed.

Lemma handleSearch_fetches q w :
  validMinQueryLength props <= Z.of_nat (String.length q) ->
  handleSearch props q w
  = callFetch q (validMaxResults props) (setError None (setIsLoading true w)).
Proof.
  intros Hlen. unfold handleSearch.
  destruct (Z.ltb_spec (Z.of_nat (String.length q)) (validMinQueryLength props));
    [lia|reflexivity].
Qed.

Lemma isInflight_callFetch q limit w :
  isInflight (nextRequestId w) (callFetch q limit w) = true.
Proof.
  unfold isInflight, callFetch. cbn [inflight].
  rewrite existsb_app. cbn. rewrite Nat.eqb_refl. now rewrite orb_true_r.
Qed.


(** X16.  One whole search: after a keystroke with a value that is long
    enough and a quiet interval, exactly one fetch has been called and is
    pending, loading is on and the error is cleared.  When that fetch is
    fulfilled the result set is its items, the dropdown is open iff there
    are any, nothing is highlighted and loading is off; when it is
    rejected the result set is empty, the fixed error message is set and
    loading is off. *)
Theorem search_cycle w (v : string) (quiet : Z) :
  timersOk w = true ->
  validMinQueryLength props <= Z.of_nat (String.length v) ->
  validDebounceMs props <= quiet ->
  let w1 := run props w [Change v; Elapse quiet] in
  let rid := nextRequestId w in
  (isInflight rid w1 = true
   /\ trace w1 = trace w ++ [FetchCall v (validMaxResults props)]
   /\ isLoading (ui w1) = true /\ error (ui w1) = None
   /\ results (ui w1) = results (ui w) /\ query (ui w1) = v)
  /\ (forall items,
        let w2 := step props w1 (Fulfil rid items) in
        results (ui w2) = items
        /\ isOpen (ui w2) = (0 <? Z.of_nat (length items))
        /\ selectedIndex (ui w2) = -1
        /\ isLoading (ui w2) = false /\ error (ui w2) = None
        /\ query (ui w2) = v /\ trace w2 = trace w1)
  /\ (forall err,
        let w2 := step props w1 (Reject rid err) in
        results (ui w2) = []
        /\ error (ui w2) = Some "Failed to fetch search results"
        /\ isLoading (ui w2) = false /\ query (ui w2) = v).
Proof.
  intros Hok Hlen Hquiet w1 rid.
  destruct (change_frame v w) as (Eui & Einf & Enext & Etr & Enow).
  destruct (change_justTyped props v w Hok) as ((Et & _) & _). cbn zeta in Et.
  assert (E1 : w1 = callFetch v (validMaxResults props)
                      (setError None (setIsLoading true
                         (mkWorld (ui (step props w (Change v)))
                                  (debounceTimer (step props w (Change v))) []
                                  (nextTimerId (step props w (Change v)))
                                  (now (step props w (Change v)) + Z.max 0 quiet)
                                  (inflight (step props w (Change v)))
                                  (nextRequestId (step props w (Change v)))
                                  (trace (step props w (Change v))))))).
  { subst w1. unfold run. cbn [fold_left].
    rewrite (elapse_fires_pending _ _ v quiet _ Et).
    - now apply handleSearch_fetches.
    - assert (0 <= validDebounceMs props)
        by (unfold validDebounceMs, Js.Math_max; lia).
      lia. }
  assert (Hin : isInflight rid w1 = true).
  { rewrite E1. subst rid. rewrite <- Enext.
    match goal with
    | |- isInflight _ (callFetch ?q ?l ?w0) = true =>
        exact (isInflight_callFetch q l w0)
    end. }
  split; [|split].
  - split; [exact Hin|]. rewrite E1. unfold_handlers. rewrite Etr, Eui.
    repeat split; reflexivity.
  - intros items w2. subst w2. rewrite (step_Fulfil_inflight props _ _ _ Hin).
    rewrite E1. unfold_handlers. rewrite Eui. repeat split; reflexivity.
  - intros err w2. subst w2. rewrite (step_Reject_inflight props _ _ _ Hin).
    rewrite E1. unfold handleSearch_rejected.
    destruct (onError props); unfold_handlers; rewrite Eui;
      repeat split; reflexivity.
Qed.

(** *** Keyboard navigation *)

Lemma arrow_down_step w :
  selectedIndex (ui (step props w (KeyDown ArrowDown)))
  = (if selectedIndex (ui w) <? Z.of_nat (length (results (ui w))) - 1
     then selectedIndex (ui w) + 1 else selectedIndex (ui w))
  /\ results (ui (step props w (KeyDown ArrowDown))) = results (ui w).
Proof. split; reflexivity. Qed.

Lemma arrow_up_step w :
  selectedIndex (ui (step props w (KeyDown ArrowUp)))
  = (if 0 <? selectedIndex (ui w) then selectedIndex (ui w) - 1 else -1)
  /\ results (ui (step props w (KeyDown ArrowUp))) = results (ui w).
Proof. split; reflexivity. Qed.

Lemma arrow_down_presses (k : nat) : forall w,
  selectedIndex (ui (run props w (presses ArrowDown k)))
  = Z.max (selectedIndex (ui w))
          (Z.min (selectedIndex (ui w) + Z.of_nat k)
                 (Z.of_nat (length (results (ui w))) - 1))
  /\ results (ui (run props w (presses ArrowDown k))) = results (ui w).
Proof.
  induction k as [|k IH]; intros w.
  - cbn [presses repeat run fold_left]. split; [lia|reflexivity].
  - change (run props w (presses ArrowDown (S k)))
      with (run props (step props w (KeyDown ArrowDown)) (presses ArrowDown k)).
    destruct (IH (step props w (KeyDown ArrowDown))) as (Ei & Er).
    destruct (arrow_down_step w) as (Si & Sr).
    rewrite Ei, Er, Si, Sr. split; [|reflexivity].
    destruct (Z.ltb_spec (selectedIndex (ui w))
                         (Z.of_nat (length (results (ui w))) - 1)); lia.
Qed.

Lemma arrow_up_presses (k : nat) : forall w,
  selectedIndex (ui (run props w (presses ArrowUp (S k))))
  = Z.max (-1) (selectedIndex (ui w) - Z.of_nat (S k))
  /\ results (ui (run props w (presses ArrowUp (S k)))) = results (ui w).
Proof.
  induction k as [|k IH]; intros w.
  - change (run props w (presses ArrowUp 1)) with (step props w (KeyDown ArrowUp)).
    destruct (arrow_up_step w) as (Si & Sr). rewrite Si, Sr.
    split; [|reflexivity]. destruct (Z.ltb_spec 0 (selectedIndex (ui w))); lia.
  - change (run props w (presses ArrowUp (S (S k))))
      with (run props (step props w (KeyDown ArrowUp)) (presses ArrowUp (S k))).
    destruct (IH (step props w (KeyDown ArrowUp))) as (Ei & Er).
    destruct (arrow_up_step w) as (Si & Sr).
    rewrite Ei, Er, Si, Sr. split; [|reflexivity].
    destruct (Z.ltb_spec 0 (selectedIndex (ui w))); lia.
Qed.

(** X17.  Arrow keys move the highlight one step and never wrap: [k]
    presses of ArrowDown from index [i] over [n] results lead to
    [min (i + k) (n - 1)] (or leave [i], if it is beyond that already);
    [k >= 1] presses of ArrowUp lead to [max (i - k) (-1)].  The result
    set is not touched. *)
Theorem arrow_presses_do_not_wrap w (k : nat) :
  let i := selectedIndex (ui w) in
  let n := Z.of_nat (length (results (ui w))) in
  let down := run props w (presses ArrowDown k) in
  let up := run props w (presses ArrowUp (S k)) in
  selectedIndex (ui down) = Z.max i (Z.min (i + Z.of_nat k) (n - 1))
  /\ selectedIndex (ui up) = Z.max (-1) (i - Z.of_nat (S k))
  /\ results (ui down) = results (ui w)
  /\ results (ui up) = results (ui w).
Proof.
  cbn zeta.
  destruct (arrow_down_presses k w) as (D1 & D2).
  destruct (arrow_up_presses k w) as (U1 & U2).
  repeat split; assumption.
Qed.

(** X18.  Enter without a highlighted result does nothing at all: when the
    highlighted index is negative or not an index into the result set,
    the world after Enter is the world before. *)
Theorem enter_without_highlight_is_noop w :
  selectedIndex (ui w) < 0
  \/ Z.of_nat (length (results (ui w))) <= selectedIndex (ui w) ->
  step props w (KeyDown Enter) = w.
Proof.
  intros Hout. cbn [step handleKeyDown].
  destruct (Z.leb_spec 0 (selectedIndex (ui w))) as [Hge|Hlt]; [|reflexivity].
  destruct Hout as [Hneg|Hbig]; [lia|].
  rewrite (lookup_ge_None_2 (results (ui w)) (Z.to_nat (selectedIndex (ui w))));
    [reflexivity|lia].
Qed.

(** X19.  Hover and keyboard share the highlight: moving the pointer onto
    the rendered result [i] and pressing Enter commits [results[i]]. *)
Theorem hover_then_enter_selects w (i : nat) (item : T) :
  itemsRendered w = true ->
  results (ui w) !! i = Some item ->
  selectionCommitted props item w (run props w [MouseEnter i; KeyDown Enter]).
Proof.
  intros Hr Hi. unfold run. cbn [fold_left].
  assert (E : step props w (MouseEnter i) = setSelectedIndex (Z.of_nat i) w).
  { cbn [step]. now rewrite Hr, Hi. }
  rewrite E. cbn [step handleKeyDown].
  change (selectedIndex (ui (setSelectedIndex (Z.of_nat i) w))) with (Z.of_nat i).
  change (results (ui (setSelectedIndex (Z.of_nat i) w))) with (results (ui w)).
  replace (0 <=? Z.of_nat i) with true by (symmetry; apply Z.leb_le; lia).
  rewrite Nat2Z.id, Hi.
  pose proof (handleSelectItem_committed props item
                (setSelectedIndex (Z.of_nat i) w)) as Hc.
  exact Hc.
Qed.

(** X20.  A selection does not cancel a pending fetch: when a result is
    committed with Enter while a fetch is pending and that fetch is
    fulfilled afterwards, its items become the result set and the dropdown
    opens on them again, under the id that the selection wrote into the
    input. *)
Theorem fetch_fulfilled_after_selection_reopens w (i rid : nat) (item : T)
    (items : list T) :
  selectedIndex (ui w) = Z.of_nat i ->
  results (ui w) !! i = Some item ->
  isInflight rid w = true ->
  let w' := run props w [KeyDown Enter; Fulfil rid items] in
  query (ui w') = item_id item
  /\ results (ui w') = items
  /\ isOpen (ui w') = (0 <? Z.of_nat (length items)).
Proof.
  intros Hsel Hi Hin w'. subst w'. unfold run. cbn [fold_left].
  assert (E : step props w (KeyDown Enter) = handleSelectItem props item w).
  { cbn [step handleKeyDown]. rewrite Hsel.
    replace (0 <=? Z.of_nat i) with true by (symmetry; apply Z.leb_le; lia).
    now rewrite Nat2Z.id, Hi. }
  rewrite E.
  assert (Hin' : isInflight rid (handleSelectItem props item w) = true).
  { unfold handleSelectItem. destruct (onSelect props); exact Hin. }
  rewrite (step_Fulfil_inflight props _ _ _ Hin').
  unfold handleSelectItem. destruct (onSelect props); repeat split; reflexivity.
Qed.

(** X21.  The clear control does not cancel the debounce timer: after a
    keystroke with a non-empty value that is long enough, a click on the
    clear button and a quiet interval, the input is empty and the fetch
    function has been called for the value that was cleared. *)
Theorem clear_does_not_cancel_pending_search w (v : string) (quiet : Z) :
  timersOk w = true ->
  v <> "" ->
  validMinQueryLength props <= Z.of_nat (String.length v) ->
  validDebounceMs props <= quiet ->
  let w' := run props w [Change v; ClearClick; Elapse quiet] in
  query (ui w') = ""
  /\ trace w' = trace w ++ [InputFocus; FetchCall v (validMaxResults props)]
  /\ isLoading (ui w') = true.
Proof.
  intros Hok Hv Hlen Hquiet w'. subst w'. unfold run. cbn [fold_left].
  destruct (change_frame v w) as (Eui & _ & _ & Etr & _).
  destruct (change_justTyped props v w Hok) as ((Et & _) & _). cbn zeta in Et.
  set (w1 := step props w (Change v)) in *.
  assert (E2 : step props w1 ClearClick = handleClear w1).
  { cbn [step]. rewrite Eui. cbn [query]. destruct v; [congruence|reflexivity]. }
  rewrite E2.
  rewrite (elapse_fires_pending _ _ v quiet (handleClear w1) Et).
  - rewrite handleSearch_fetches by exact Hlen.
    unfold_handlers. rewrite Etr, <- app_assoc. repeat split; reflexivity.
  - assert (0 <= validDebounceMs props)
      by (unfold validDebounceMs, Js.Math_max; lia).
    change (now (handleClear w1)) with (now w1). lia.
Qed.

(** X22.  Unmounting cancels the debounce timer: after the cleanup no
    timer is pending, and however much time passes then, no search runs:
    neither the state nor the trace changes. *)
Theorem unmount_cancels_pending_search w (dt : Z) :
  timersOk w = true ->
  timers (unmountCleanup w) = []
  /\ ui (elapse props dt (unmountCleanup w)) = ui w
  /\ trace (elapse props dt (unmountCleanup w)) = trace w
  /\ inflight (elapse props dt (unmountCleanup w)) = inflight w.
Proof.
  intros Hok.
  assert (Et : timers (unmountCleanup w) = []).
  { unfold unmountCleanup, timersOk in *.
    destruct (timers w) as [|tm [|tm' tms]] eqn:E; [| |discriminate].
    - destruct (debounceTimer w); [|exact E].
      unfold clearTimeout. cbn [timers]. now rewrite E.
    - destruct (debounceTimer w) as [id|]; [|discriminate].
      unfold clearTimeout. cbn [timers]. rewrite E. cbn [List.filter].
      now rewrite Hok. }
  split; [exact Et|].
  unfold elapse, andThen, fireDueTimers.
  change (timers (advanceClock dt (unmountCleanup w)))
    with (timers (unmountCleanup w)).
  rewrite Et. cbn [List.filter fold_left].
  unfold unmountCleanup. destruct (debounceTimer w); repeat split; reflexivity.
Qed.

(** X23.  Escape keeps the results so that focus can bring them back:
    with a non-empty query, Escape followed by a focus of the input shows
    the dropdown again, on the same result set, with nothing highlighted;
    with an empty query the dropdown stays closed. *)
Theorem escape_then_focus_reopens w :
  let w' := run props w [KeyDown Escape; Focus] in
  isOpen (ui w') = negb (Js.isEmpty (query (ui w)))
  /\ results (ui w') = results (ui w)
  /\ selectedIndex (ui w') = -1.
Proof.
  cbn zeta. unfold run. cbn [fold_left step handleKeyDown]. unfold handleFocus.
  change (query (ui ((setIsOpen false >>> setSelectedIndex (-1)) w)))
    with (query (ui w)).
  destruct (Js.isEmpty (query (ui w))); repeat split; reflexivity.
Qed.

(** *** What is rendered *)

(** X24.  When the dropdown is open exactly one of its three bodies is
    rendered: the loading text while loading, else the no-results text for
    an empty result set, else the list with one row per result; and it is
    rendered exactly when the input reports [aria-expanded]. *)
Theorem dropdown_shows_one_body s :
  dropdownParts s
  = [if isLoading s then LoadingPart
     else match results s with
          | [] => NoResultsPart
          | _ => ListPart (renderRows s)
          end]
  /\ length (renderRows s) = length (results s)
  /\ dropdown (render s)
     = (if ariaExpanded (render s) then Some (dropdownParts s) else None).
Proof.
  split; [|split].
  - unfold dropdownParts. destruct (isLoading s); destruct (results s); reflexivity.
  - unfold renderRows. apply length_imap.
  - reflexivity.
Qed.

(** X25.  Row [i] of the list shows [results[i]] and is marked selected
    exactly when [i] is the highlighted index, so at most one row is
    marked selected. *)
Theorem rows_mark_the_highlighted_index s :
  (forall (i : nat) (item : T) (b : bool),
     renderRows s !! i = Some (item, b)
     <-> results s !! i = Some item /\ b = (selectedIndex s =? Z.of_nat i))
  /\ (forall (i j : nat) (x y : T),
        renderRows s !! i = Some (x, true) ->
        renderRows s !! j = Some (y, true) -> i = j).
Proof.
  assert (Hrow : forall (i : nat) (item : T) (b : bool),
             renderRows s !! i = Some (item, b)
             <-> results s !! i = Some item /\ b = (selectedIndex s =? Z.of_nat i)).
  { intros i item b. unfold renderRows. rewrite list_lookup_imap.
    destruct (results s !! i) as [x|]; cbn.
    - split.
      + intros E. injection E as -> <-. now split.
      + intros [E ->]. injection E as ->. reflexivity.
    - split; [discriminate|intros [E _]; discriminate]. }
  split; [exact Hrow|].
  intros i j x y Hi Hj.
  apply Hrow in Hi as [_ Ei]. apply Hrow in Hj as [_ Ej].
  symmetry in Ei, Ej. apply Z.eqb_eq in Ei, Ej. lia.
Qed.

(** X26.  What Enter commits is what the list shows as selected: if a row
    of the rendered list is marked selected, Enter commits the item of
    that row. *)
Theorem enter_commits_the_marked_row w (item : T) :
  In (item, true) (renderRows (ui w)) ->
  selectionCommitted props item w (step props w (KeyDown Enter)).
Proof.
  intros Hin. apply list_elem_of_In, list_elem_of_lookup in Hin as [i Hi].
  unfold renderRows in Hi. rewrite list_lookup_imap in Hi.
  destruct (results (ui w) !! i) as [x|] eqn:Ex; [|discriminate].
  cbn in Hi. injection Hi as -> Hsel. apply Z.eqb_eq in Hsel.
  cbn [step handleKeyDown]. rewrite Hsel.
  replace (0 <=? Z.of_nat i) with true by (symmetry; apply Z.leb_le; lia).
  rewrite Nat2Z.id, Ex. apply handleSelectItem_committed.
Qed.

End EngineScenarios.

(** *** The default fetch function *)

(** X27.  Through the default fetch function the search service behaves
    as specified for every configuration: the clamped limit is never the
    zero that [Number(limit) || 10] would turn into 10, so the items are
    the matches truncated to [maxResults] clamped into [1,100], and there
    are never more of them than that. *)
Theorem defaultFetch_meets_spec (p : Props) (q : string) (limit : Z) :
  defaultFetch p q limit = Api.searchItems_spec q (Some (maxResults p))
  /\ Z.of_nat (length (defaultFetch p q limit)) <= validMaxResults p.
Proof.
  assert (Hb : 1 <= validMaxResults p <= 100)
    by (unfold validMaxResults, Js.Math_max, Js.Math_min; lia).
  assert (E : defaultFetch p q limit = Api.searchItems_spec q (Some (maxResults p))).
  { unfold defaultFetch. rewrite searchItems_meets_spec.
    - unfold Api.searchItems_spec.
      destruct (Js.isEmpty (Js.toLowerCase (Js.trim q))); [reflexivity|].
      f_equal. f_equal.
      unfold Api.clamp_1_100, validMaxResults, Js.Math_max, Js.Math_min. lia.
    - intros E. injection E as E. lia. }
  split; [exact E|]. rewrite E. unfold Api.searchItems_spec.
  destruct (Js.isEmpty (Js.toLowerCase (Js.trim q))); [cbn; lia|].
  rewrite length_take.
  unfold Api.clamp_1_100, validMaxResults, Js.Math_max, Js.Math_min in *. lia.
Qed.

(* ------------------------------------------------------------------ *)
(** *** The theorems at concrete inputs *)

Lemma searchItems_sound_witness :
  let item := hd react Api.MOCK_ITEMS in
  In item (Api.searchItems " React" None)
  /\ In item Api.MOCK_ITEMS
  /\ Api.sanitize " React" <> ""
  /\ (exists pre post,
        Api.searchableText item = (pre ++ Api.sanitize " React" ++ post)%string)
  /\ sublist (Api.searchItems " React" None) Api.MOCK_ITEMS.
Proof.
  cbv zeta.
  assert (Hin : In (hd react Api.MOCK_ITEMS) (Api.searchItems " React" None))
    by (left; reflexivity).
  split; [exact Hin|].
  exact (searchItems_sound " React" None (hd react Api.MOCK_ITEMS) Hin).
Defined.

Lemma searchItems_complete_witness :
  Z.of_nat (length Api.MOCK_ITEMS) <= Api.appliedLimit None
  /\ Api.sanitize "VUE " <> ""
  /\ In (hd react (tl Api.MOCK_ITEMS)) Api.MOCK_ITEMS
  /\ Js.includes (Api.searchableText (hd react (tl Api.MOCK_ITEMS)))
                 (Api.sanitize "VUE ") = true
  /\ In (hd react (tl Api.MOCK_ITEMS)) (Api.searchItems "VUE " None).
Proof.
  assert (H1 : Z.of_nat (length Api.MOCK_ITEMS) <= Api.appliedLimit None)
    by (vm_compute; discriminate).
  assert (H2 : Api.sanitize "VUE " <> "") by (vm_compute; discriminate).
  assert (H3 : In (hd react (tl Api.MOCK_ITEMS)) Api.MOCK_ITEMS)
    by (right; left; reflexivity).
  repeat split; try assumption; try reflexivity.
  exact (searchItems_complete "VUE " None _ H1 H2 H3 eq_refl).
Defined.

Lemma searchItems_case_insensitive_witness :
  Js.toLowerCase "ReAcT" = Js.toLowerCase "REACT"
  /\ Api.searchItems "ReAcT" (Some 5) = Api.searchItems "REACT" (Some 5).
Proof.
  split; [reflexivity|].
  exact (searchItems_case_insensitive "ReAcT" "REACT" (Some 5) eq_refl).
Defined.

Lemma searchItems_ignores_surrounding_space_witness :
  Js.allChars Js.isWhiteSpace "   " = true
  /\ Api.searchItems (Js.trim "   ") None = Api.searchItems "   " None
  /\ Api.searchItems "   " None = [].
Proof.
  split; [reflexivity|].
  destruct (searchItems_ignores_surrounding_space "   " None) as [E1 E2].
  split; [exact E1|exact (E2 eq_refl)].
Defined.

Lemma searchItems_monotone_in_limit_witness :
  Api.appliedLimit (Some 2) <= Api.appliedLimit (Some 5)
  /\ Api.searchItems "a" (Some 2) `prefix_of` Api.searchItems "a" (Some 5).
Proof.
  assert (Hle : Api.appliedLimit (Some 2) <= Api.appliedLimit (Some 5))
    by (vm_compute; discriminate).
  split; [exact Hle|].
  exact (searchItems_monotone_in_limit "a" (Some 2) (Some 5) Hle).
Defined.

Lemma getItemById_lookup_witness :
  In (hd react Api.MOCK_ITEMS) Api.MOCK_ITEMS
  /\ Api.id (hd react Api.MOCK_ITEMS) = "1"
  /\ Api.getItemById "1" = Some (hd react Api.MOCK_ITEMS).
Proof.
  assert (HM : In (hd react Api.MOCK_ITEMS) Api.MOCK_ITEMS) by (left; reflexivity).
  split; [exact HM|]. split; [reflexivity|].
  exact (proj2 (getItemById_lookup "1" (hd react Api.MOCK_ITEMS))
               (conj HM eq_refl)).
Defined.

Lemma getItemById_rejects_unsafe_witness :
  Api.isSafeIdChar ";" = false
  /\ Api.getItemById ("1" ++ String ";" " DROP TABLE items") = None
  /\ Api.getItemById "" = None.
Proof.
  split; [reflexivity|].
  exact (getItemById_rejects_unsafe "1" " DROP TABLE items" ";" eq_refl).
Defined.

Lemma fetch_calls_respect_guard_and_limit_witness :
  reachable defaultProps twoPending
  /\ In ("re", 10) (fetchCalls (trace twoPending))
  /\ validMinQueryLength defaultProps <= Z.of_nat (String.length "re")
  /\ 10 = validMaxResults defaultProps
  /\ 1 <= 10 <= 100.
Proof.
  assert (Hr : reachable defaultProps twoPending)
    by (apply run_reachable; constructor).
  assert (Hin : In ("re", 10) (fetchCalls (trace twoPending)))
    by (right; left; reflexivity).
  split; [exact Hr|]. split; [exact Hin|].
  exact (fetch_calls_respect_guard_and_limit defaultProps twoPending "re" 10 Hr Hin).
Defined.

Lemma absent_callbacks_are_not_called_witness :
  reachable defaultProps
    (run defaultProps openOnTwo [KeyDown Enter])
  /\ onSelect defaultProps = false
  /\ ~ In (SelectCallback vue)
          (trace (run defaultProps openOnTwo [KeyDown Enter])).
Proof.
  assert (Hr : reachable defaultProps (run defaultProps openOnTwo [KeyDown Enter]))
    by (apply run_reachable, run_reachable; constructor).
  split; [exact Hr|]. split; [reflexivity|].
  exact (proj1 (absent_callbacks_are_not_called defaultProps _ Hr) eq_refl vue).
Defined.

Lemma alert_shows_only_the_fixed_message_witness :
  let w := run defaultProps twoPending [Reject 1 (ThrownString "secret detail")] in
  reachable defaultProps w
  /\ (error (ui w) = None \/ error (ui w) = Some "Failed to fetch search results")
  /\ (alert (render (ui w)) = None
      \/ alert (render (ui w)) = Some "Failed to fetch search results").
Proof.
  cbv zeta.
  assert (Hr : reachable defaultProps
                 (run defaultProps twoPending
                      [Reject 1 (ThrownString "secret detail")]))
    by (apply run_reachable, run_reachable; constructor).
  split; [exact Hr|].
  exact (alert_shows_only_the_fixed_message defaultProps _ Hr).
Defined.

Lemma loading_implies_pending_fetch_witness :
  reachable defaultProps twoPending
  /\ isLoading (ui twoPending) = true
  /\ inflight twoPending <> [].
Proof.
  assert (Hr : reachable defaultProps twoPending)
    by (apply run_reachable; constructor).
  split; [exact Hr|]. split; [reflexivity|].
  exact (loading_implies_pending_fetch defaultProps twoPending Hr eq_refl).
Defined.

Lemma at_most_one_debounce_timer_witness :
  let w := run defaultProps openOnTwo [Change "ab"; Elapse 100; Change "abc"] in
  reachable defaultProps w
  /\ (length (timers w) <= 1)%nat
  /\ forall tm, In tm (timers w) -> debounceTimer w = Some (timer_id tm).
Proof.
  cbv zeta.
  assert (Hr : reachable defaultProps
                 (run defaultProps openOnTwo [Change "ab"; Elapse 100; Change "abc"]))
    by (apply run_reachable, run_reachable; constructor).
  split; [exact Hr|].
  exact (at_most_one_debounce_timer defaultProps _ Hr).
Defined.


Lemma search_cycle_witness :
  timersOk openOnTwo = true
  /\ validMinQueryLength defaultProps <= Z.of_nat (String.length "ab")
  /\ validDebounceMs defaultProps <= 300
  /\ (let w1 := run defaultProps openOnTwo [Change "ab"; Elapse 300] in
      isInflight (nextRequestId openOnTwo) w1 = true
      /\ trace w1 = trace openOnTwo ++ [FetchCall "ab" (validMaxResults defaultProps)]
      /\ isLoading (ui w1) = true /\ error (ui w1) = None
      /\ results (ui w1) = results (ui openOnTwo) /\ query (ui w1) = "ab").
Proof.
  assert (H1 : validMinQueryLength defaultProps <= Z.of_nat (String.length "ab"))
    by (vm_compute; discriminate).
  assert (H2 : validDebounceMs defaultProps <= 300) by (vm_compute; discriminate).
  split; [reflexivity|]. split; [exact H1|]. split; [exact H2|].
  exact (proj1 (search_cycle defaultProps openOnTwo "ab" 300 eq_refl H1 H2)).
Defined.

Lemma enter_without_highlight_is_noop_witness :
  (selectedIndex (ui twoPending) < 0
   \/ Z.of_nat (length (results (ui twoPending))) <= selectedIndex (ui twoPending))
  /\ step defaultProps twoPending (KeyDown Enter) = twoPending.
Proof.
  assert (Hout : selectedIndex (ui twoPending) < 0
                 \/ Z.of_nat (length (results (ui twoPending)))
                    <= selectedIndex (ui twoPending))
    by (left; reflexivity).
  split; [exact Hout|].
  exact (enter_without_highlight_is_noop defaultProps twoPending Hout).
Defined.

Lemma hover_then_enter_selects_witness :
  itemsRendered openOnTwo = true
  /\ results (ui openOnTwo) !! 0%nat = Some react
  /\ selectionCommitted defaultProps react openOnTwo
       (run defaultProps openOnTwo [MouseEnter 0; KeyDown Enter]).
Proof.
  split; [reflexivity|]. split; [reflexivity|].
  exact (hover_then_enter_selects defaultProps openOnTwo 0 react eq_refl eq_refl).
Defined.

Lemma fetch_fulfilled_after_selection_reopens_witness :
  let w := run defaultProps openOnTwo [Change "ab"; Elapse 300] in
  selectedIndex (ui w) = Z.of_nat 1
  /\ results (ui w) !! 1%nat = Some vue
  /\ isInflight 1 w = true
  /\ (let w' := run defaultProps w [KeyDown Enter; Fulfil 1 [react]] in
      query (ui w') = item_id vue
      /\ results (ui w') = [react]
      /\ isOpen (ui w') = (0 <? Z.of_nat (length [react]))).
Proof.
  cbv zeta. split; [reflexivity|]. split; [reflexivity|]. split; [reflexivity|].
  exact (fetch_fulfilled_after_selection_reopens defaultProps
           (run defaultProps openOnTwo [Change "ab"; Elapse 300]) 1 1 vue [react]
           eq_refl eq_refl eq_refl).
Defined.

Lemma clear_does_not_cancel_pending_search_witness :
  timersOk (@initialWorld Api.SearchItem) = true
  /\ "vue" <> ""
  /\ validMinQueryLength defaultProps <= Z.of_nat (String.length "vue")
  /\ validDebounceMs defaultProps <= 300
  /\ (let w' := run defaultProps (@initialWorld Api.SearchItem)
                  [Change "vue"; ClearClick; Elapse 300] in
      query (ui w') = ""
      /\ trace w' = trace (@initialWorld Api.SearchItem)
                      ++ [InputFocus; FetchCall "vue" (validMaxResults defaultProps)]
      /\ isLoading (ui w') = true).
Proof.
  assert (H0 : "vue" <> "") by discriminate.
  assert (H1 : validMinQueryLength defaultProps <= Z.of_nat (String.length "vue"))
    by (vm_compute; discriminate).
  assert (H2 : validDebounceMs defaultProps <= 300) by (vm_compute; discriminate).
  split; [reflexivity|]. split; [exact H0|]. split; [exact H1|]. split; [exact H2|].
  exact (clear_does_not_cancel_pending_search defaultProps
           (@initialWorld Api.SearchItem) "vue" 300 eq_refl H0 H1 H2).
Defined.

Lemma unmount_cancels_pending_search_witness :
  let w := run defaultProps openOnTwo [Change "ab"] in
  timersOk w = true
  /\ timers w <> []
  /\ timers (unmountCleanup w) = []
  /\ ui (elapse defaultProps 1000 (unmountCleanup w)) = ui w
  /\ trace (elapse defaultProps 1000 (unmountCleanup w)) = trace w
  /\ inflight (elapse defaultProps 1000 (unmountCleanup w)) = inflight w.
Proof.
  cbv zeta. split; [reflexivity|]. split; [discriminate|].
  exact (unmount_cancels_pending_search defaultProps
           (run defaultProps openOnTwo [Change "ab"]) 1000 eq_refl).
Defined.

Lemma enter_commits_the_marked_row_witness :
  In (vue, true) (renderRows (ui openOnTwo))
  /\ selectionCommitted defaultProps vue openOnTwo
       (step defaultProps openOnTwo (KeyDown Enter)).
Proof.
  assert (Hin : In (vue, true) (renderRows (ui openOnTwo)))
    by (vm_compute; right; left; reflexivity).
  split; [exact Hin|].
  exact (enter_commits_the_marked_row defaultProps openOnTwo vue Hin).
Defined.

Lemma rows_mark_the_highlighted_index_witness :
  renderRows (ui openOnTwo) !! 1%nat = Some (vue, true)
  /\ results (ui openOnTwo) !! 1%nat = Some vue
  /\ true = (selectedIndex (ui openOnTwo) =? Z.of_nat 1).
Proof.
  assert (Hrow : renderRows (ui openOnTwo) !! 1%nat = Some (vue, true))
    by (vm_compute; reflexivity).
  split; [exact Hrow|].
  exact (proj1 (proj1 (rows_mark_the_highlighted_index (ui openOnTwo)) 1%nat vue true)
               Hrow).
Defined.
